(** * RealtimeTTS: the Piper engine adapter ([RealtimeTTS/engines/piper_engine.py])

    A shallow embedding of [PiperVoice] and [PiperEngine].  Python code that
    can raise runs in a small state-and-exception monad; the file system, the
    standard output and the list of [subprocess.run] calls are explicit
    state.  Functions of Python's own library and of the operating system
    (the JSON parser, [int] on a string, [str] on a float, the [wave] reader,
    the codec of the standard output on a path, the temporary-name
    generator and the behaviour of the external executable) are variables
    of a section: every theorem holds whatever they are. *)

From Stdlib Require Import ZArith NArith List String Lia DecimalString DecimalZ.
From Stdlib.Strings Require Import Byte.
From stdpp Require Import base option gmap strings.
Import ListNotations.

#[local] Open Scope Z_scope.
#[local] Open Scope string_scope.
#[local] Set Warnings "-register-all".

(** ** Python values *)

(** A Python [float] by its exact value: [(-1)^neg * m * 2^e], the two
    zeros, the two infinities and NaN. *)
Inductive py_float :=
| FZero (neg : bool)
| FInf (neg : bool)
| FNan
| FFinite (neg : bool) (m : positive) (e : Z).

(** The literal [1.0]. *)
Definition float_one : py_float := FFinite false 1 0.

(** [a == b] on floats: NaN equals nothing, the two zeros are equal, finite
    values are compared after their exponents are aligned. *)
Definition py_float_eqb (a b : py_float) : bool :=
  match a, b with
  | FZero _, FZero _ => true
  | FInf s, FInf t => Bool.eqb s t
  | FFinite s m e, FFinite t n f =>
      let k := Z.min e f in
      Bool.eqb s t && Z.eqb (Z.pos m * 2 ^ (e - k)) (Z.pos n * 2 ^ (f - k))
  | _, _ => false
  end.

(** [a != b]. *)
Definition py_float_ne (a b : py_float) : bool := negb (py_float_eqb a b).

(** Exceptions the modelled code can meet; all are subclasses of
    [Exception]. *)
Inductive exn :=
| FileNotFoundError
| FileExistsError
| IsADirectoryError
| PermissionError
| OSError
| CalledProcessError (returncode : Z) (stderr : list byte)
| WaveError
| EOFError
| TypeError
| KeyError
| ValueError
| OverflowError
| UnicodeEncodeError.

(** [int(f)] on a float: truncation toward zero; [OverflowError] on an
    infinity and [ValueError] on NaN. *)
Definition py_float_trunc (f : py_float) : exn + Z :=
  match f with
  | FZero _ => inr 0
  | FInf _ => inl OverflowError
  | FNan => inl ValueError
  | FFinite s m e =>
      let a := if Z.leb 0 e then Z.pos m * 2 ^ e else Z.pos m / 2 ^ (- e) in
      inr (if s then - a else a)
  end.

(** What [json.load] returns: [None], [bool], [int], [float], [str], [list]
    and [dict] with string keys. *)
Inductive json :=
| JNull
| JBool (b : bool)
| JInt (z : Z)
| JFloat (f : py_float)
| JStr (s : string)
| JArr (l : list json)
| JObj (m : gmap string json).

(** [needle in hay] on two strings. *)
Fixpoint is_substring (needle hay : string) : bool :=
  String.prefix needle hay ||
  match hay with
  | EmptyString => false
  | String _ rest => is_substring needle rest
  end.

(** ** The state-and-exception monad *)

Inductive outcome (A : Type) :=
| Ret (a : A)
| Raise (e : exn).
Arguments Ret {A} a.
Arguments Raise {A} e.

(** A computation over a state [S]: side effects made before an exception
    is raised stay in the state. *)
Definition M (S A : Type) : Type := S -> outcome A * S.

Definition ret {S A} (a : A) : M S A := fun s => (Ret a, s).

Definition raise {S A} (e : exn) : M S A := fun s => (Raise e, s).

Definition bind {S A B} (c : M S A) (k : A -> M S B) : M S B :=
  fun s =>
    match c s with
    | (Ret a, s1) => k a s1
    | (Raise e, s1) => (Raise e, s1)
    end.

Definition gets {S A} (f : S -> A) : M S A := fun s => (Ret (f s), s).

Definition modify {S} (f : S -> S) : M S unit := fun s => (Ret tt, f s).

(** A library call that returns or raises without touching the state. *)
Definition lift {S A} (r : exn + A) : M S A :=
  match r with
  | inr a => ret a
  | inl e => raise e
  end.

(** [try: body  except ...: ...]: [handlers e] is the body of the first
    [except] clause that matches [e], or [None] when no clause matches and
    [e] propagates. *)
Definition try_except {S A} (body : M S A) (handlers : exn -> option (M S A)) : M S A :=
  fun s =>
    match body s with
    | (Ret a, s1) => (Ret a, s1)
    | (Raise e, s1) =>
        match handlers e with
        | Some h => h s1
        | None => (Raise e, s1)
        end
    end.

(** [try: body  finally: fin]: [fin] always runs; the result is that of
    [body] unless [fin] itself raises. *)
Definition try_finally {S A} (body : M S A) (fin : M S unit) : M S A :=
  fun s =>
    match body s with
    | (o, s1) =>
        match fin s1 with
        | (Ret _, s2) => (o, s2)
        | (Raise e, s2) => (Raise e, s2)
        end
    end.

Declare Scope py_scope.
Delimit Scope py_scope with py.
Notation "x <- c ;; k" := (bind c (fun x => k))
  (at level 100, c at next level, right associativity) : py_scope.
Notation "c ;;; k" := (bind c (fun _ => k))
  (at level 100, right associativity) : py_scope.
#[local] Open Scope py_scope.

(** ** The file system *)

(** A path names a regular file or a directory.  [locked] says that the
    operating system refuses to remove the file. *)
Inductive node :=
| File (content : list byte) (locked : bool)
| Dir.

Abbreviation filesystem := (gmap string node).

(** [os.path.exists(p)]. *)
Definition path_exists (fs : filesystem) (p : string) : bool :=
  match fs !! p with
  | Some _ => true
  | None => false
  end.

(** [os.path.isfile(p)]. *)
Definition isfile (fs : filesystem) (p : string) : bool :=
  match fs !! p with
  | Some (File _ _) => true
  | _ => false
  end.

(** [open(p).read()] as bytes. *)
Definition read_file (fs : filesystem) (p : string) : exn + list byte :=
  match fs !! p with
  | Some (File content _) => inr content
  | Some Dir => inl IsADirectoryError
  | None => inl FileNotFoundError
  end.

(** [os.remove(p)]: the new file system, or the exception. *)
Definition os_remove (fs : filesystem) (p : string) : exn + filesystem :=
  match fs !! p with
  | Some (File _ false) => inr (delete p fs)
  | Some (File _ true) => inl PermissionError
  | Some Dir => inl IsADirectoryError
  | None => inl FileNotFoundError
  end.

(** Truth value of a string: the empty string is false. *)
Definition str_truthy (s : string) : bool :=
  match s with
  | EmptyString => false
  | String _ _ => true
  end.

(** [key in container] for a string [key]. *)
Definition py_in (key : string) (container : json) : exn + bool :=
  match container with
  | JObj m => inr (match m !! key with Some _ => true | None => false end)
  | JArr l =>
      inr (existsb (fun x => match x with JStr s => String.eqb key s | _ => false end) l)
  | JStr s => inr (is_substring key s)
  | JNull | JBool _ | JInt _ | JFloat _ => inl TypeError
  end.

(** [container[key]] for a string [key]. *)
Definition py_getitem (container : json) (key : string) : exn + json :=
  match container with
  | JObj m =>
      match m !! key with
      | Some v => inr v
      | None => inl KeyError
      end
  | _ => inl TypeError
  end.

(** ** PiperVoice *)

Record PiperVoice := {
  model_file : string;
  config_file : option string;
  native_sample_rate : Z
}.

Section Voice.

(** [json.load] on the bytes of a file: the parsed value, or [None] when
    the bytes are not UTF-8 or not JSON (a [ValueError]). *)
Variable json_load : list byte -> option json.

(** [int(s)] on a string: [None] when it raises [ValueError]. *)
Variable int_of_str : string -> option Z.

(** [int(v)] on a value that came out of [json.load]. *)
Definition py_int (v : json) : exn + Z :=
  match v with
  | JBool b => inr (if b then 1 else 0)
  | JInt z => inr z
  | JFloat f => py_float_trunc f
  | JStr s =>
      match int_of_str s with
      | Some z => inr z
      | None => inl ValueError
      end
  | JNull | JArr _ | JObj _ => inl TypeError
  end.

(** Lines 14-18: the config path kept by the descriptor. *)
Definition resolve_config (fs : filesystem) (model_file : string)
    (config_file : option string) : option string :=
  match config_file with
  | None =>
      let possible_json := model_file ++ ".json" in
      if isfile fs possible_json then Some possible_json else None
  | Some c => Some c
  end.

(** [self.config_file and os.path.exists(self.config_file)]. *)
Definition config_present (fs : filesystem) (config_file : option string) : bool :=
  match config_file with
  | Some c => str_truthy c && path_exists fs c
  | None => false
  end.

(** Lines 23-28, the body of the [try]: the value assigned to
    [native_sample_rate], or [default] when neither branch assigns. *)
Definition read_sample_rate (c : string) (default : Z) : M filesystem Z :=
  data <- (fun fs => lift (read_file fs c) fs) ;;
  config_data <- lift (match json_load data with
                       | Some j => inr j
                       | None => inl ValueError
                       end) ;;
  has_audio <- lift (py_in "audio" config_data) ;;
  nested <- (if has_audio : bool
             then audio <- lift (py_getitem config_data "audio") ;;
                  lift (py_in "sample_rate" audio)
             else ret false) ;;
  if nested : bool
  then audio <- lift (py_getitem config_data "audio") ;;
       v <- lift (py_getitem audio "sample_rate") ;;
       lift (py_int v)
  else
    top <- lift (py_in "sample_rate" config_data) ;;
    if top : bool
    then v <- lift (py_getitem config_data "sample_rate") ;;
         lift (py_int v)
    else ret default.

(** [PiperVoice.__init__]. *)
Definition PiperVoice_init (model_file : string) (config_file : option string)
    : M filesystem PiperVoice :=
  cfg <- gets (fun fs => resolve_config fs model_file config_file) ;;
  present <- gets (fun fs => config_present fs cfg) ;;
  rate <- (match cfg with
           | Some c =>
               if present : bool
               then try_except (read_sample_rate c 24000) (fun _ => Some (ret 24000))
               else ret 24000
           | None => ret 24000
           end) ;;
  ret {| model_file := model_file; config_file := cfg; native_sample_rate := rate |}.

End Voice.

(** ** PiperEngine *)

Record PiperEngine := {
  piper_path : string;
  voice : option PiperVoice;
  length_scale : py_float;
  queue : list (list byte)
}.

(** [PiperEngine.__init__]: [environ] is [os.environ] and [os_name] is
    [os.name]. *)
Definition PiperEngine_init (environ : gmap string string) (os_name : string)
    (piper_path : option string) (voice : option PiperVoice)
    (length_scale : py_float) : PiperEngine :=
  let path :=
    match piper_path with
    | None =>
        let env_path := environ !! "PIPER_PATH" in
        let default_exe := if String.eqb os_name "nt" then "piper.exe" else "piper" in
        match env_path with
        | Some p => if str_truthy p then p else default_exe
        | None => default_exe
        end
    | Some p => p
    end in
  {| piper_path := path; voice := voice; length_scale := length_scale; queue := [] |}.

(** [pyaudio.paInt16], the 16-bit signed integer sample format. *)
Definition paInt16 : Z := 8.

(** [PiperEngine.get_stream_info]: [rate] is computed and not used. *)
Definition get_stream_info (self : PiperEngine) : Z * Z * Z :=
  let rate := 24000 in
  let rate :=
    match voice self with
    | Some v => native_sample_rate v
    | None => rate
    end in
  (paInt16, 1, 24000).

(** [PiperEngine.set_voice]. *)
Definition set_voice (self : PiperEngine) (v : PiperVoice) : PiperEngine :=
  {| piper_path := piper_path self; voice := Some v;
     length_scale := length_scale self; queue := queue self |}.

(** [str.encode("utf-8")] on a string given by its code points: surrogates
    cannot be encoded. *)
Definition utf8_byte (n : N) : byte :=
  default x00 (Byte.of_N n).

Definition encode_code_point (c : N) : option (list byte) :=
  if (c <? 0x80)%N then Some [utf8_byte c]
  else if (c <? 0x800)%N then
    Some [utf8_byte (N.lor 0xC0 (N.shiftr c 6));
          utf8_byte (N.lor 0x80 (N.land c 0x3F))]
  else if ((0xD800 <=? c) && (c <=? 0xDFFF))%N then None
  else if (c <? 0x10000)%N then
    Some [utf8_byte (N.lor 0xE0 (N.shiftr c 12));
          utf8_byte (N.lor 0x80 (N.land (N.shiftr c 6) 0x3F));
          utf8_byte (N.lor 0x80 (N.land c 0x3F))]
  else if (c <=? 0x10FFFF)%N then
    Some [utf8_byte (N.lor 0xF0 (N.shiftr c 18));
          utf8_byte (N.lor 0x80 (N.land (N.shiftr c 12) 0x3F));
          utf8_byte (N.lor 0x80 (N.land (N.shiftr c 6) 0x3F));
          utf8_byte (N.lor 0x80 (N.land c 0x3F))]
  else None.

Fixpoint encode_utf8 (text : list N) : exn + list byte :=
  match text with
  | [] => inr []
  | c :: rest =>
      match encode_code_point c, encode_utf8 rest with
      | Some bs, inr tail => inr (bs ++ tail)%list
      | _, _ => inl UnicodeEncodeError
      end
  end.

(** One line written by [print]: the message with its interpolated values. *)
Inductive log_line :=
| LogVoiceNotSet
| LogExeNotFound (piper_path : string)
| LogRunError (returncode : Z) (stderr : list byte)
| LogWavError (output_wav_path : string) (e : exn)
| LogUnexpected (e : exn).

(** What [subprocess.run] meets: the executable cannot be started, or it
    runs to its exit code, leaving its two output streams and the file
    system as it changed it. *)
Inductive proc_result :=
| SpawnFailed (e : exn)
| Exited (returncode : Z) (out err : list byte) (fs' : filesystem).

(** What [wave.open] and [readframes] give on the bytes of a file. *)
Inductive wav_result :=
| WavFrames (frames : list byte)
| WavMalformed
| WavTruncated.

(** The state one call of [synthesize] works on: the engine object, the
    world outside it, and the local variable the [finally] clause reads. *)
Record Machine := {
  self : PiperEngine;
  fs : filesystem;
  stdout : list log_line;
  proc_calls : list (list string * list byte);
  output_wav_path : string
}.

Definition set_fs (f : filesystem) (m : Machine) : Machine :=
  {| self := self m; fs := f; stdout := stdout m;
     proc_calls := proc_calls m; output_wav_path := output_wav_path m |}.

Definition set_output_wav_path (p : string) (m : Machine) : Machine :=
  {| self := self m; fs := fs m; stdout := stdout m;
     proc_calls := proc_calls m; output_wav_path := p |}.

(** The machine after one more line on the standard output. *)
Definition add_log (line : log_line) (m : Machine) : Machine :=
  {| self := self m; fs := fs m; stdout := (stdout m ++ [line])%list;
     proc_calls := proc_calls m; output_wav_path := output_wav_path m |}.

(** The machine after one more buffer at the back of [self.queue]. *)
Definition enqueue (item : list byte) (m : Machine) : Machine :=
  {| self := {| piper_path := piper_path (self m); voice := voice (self m);
                length_scale := length_scale (self m);
                queue := (queue (self m) ++ [item])%list |};
     fs := fs m; stdout := stdout m;
     proc_calls := proc_calls m; output_wav_path := output_wav_path m |}.

(** The machine after one more call of [subprocess.run]. *)
Definition add_call (cmd_list : list string) (input : list byte) (m : Machine) : Machine :=
  {| self := self m; fs := fs m; stdout := stdout m;
     proc_calls := (proc_calls m ++ [(cmd_list, input)])%list;
     output_wav_path := output_wav_path m |}.

(** Whether a line can be written to the standard output.  The stream
    encodes strictly, and is taken to write UTF-8, Python's default: the
    constant text, a number, text decoded with [errors='replace'] and the
    message of an exception never hold a lone surrogate and can always be
    written.  The two paths are interpolated as they are: [writable] says
    whether the stream can encode a path (it cannot when the bytes of the
    path are not UTF-8, which Python holds as lone surrogates). *)
Definition line_writable (writable : string -> bool) (line : log_line) : bool :=
  match line with
  | LogExeNotFound piper_path => writable piper_path
  | LogWavError output_wav_path _ => writable output_wav_path
  | LogVoiceNotSet | LogRunError _ _ | LogUnexpected _ => true
  end.

(** [print(line)]: [UnicodeEncodeError] when the stream cannot encode the
    line, which is then not written. *)
Definition print (writable : string -> bool) (line : log_line) : M Machine unit :=
  if line_writable writable line
  then modify (add_log line)
  else raise UnicodeEncodeError.

(** [self.queue.put(item)] on the unbounded FIFO queue. *)
Definition queue_put (item : list byte) : M Machine unit := modify (enqueue item).

Section Engine.

(** [str(x)] on a float. *)
Variable str_of_float : py_float -> string.

(** The [wave] module on the bytes of a file. *)
Variable wave_readframes : list byte -> wav_result.

(** The name [tempfile] picks, without its suffix, or the exception it
    raises when no temporary directory is usable. *)
Variable temp_stem : filesystem -> exn + string.

(** The executable's behaviour on an argument list, the bytes on its
    standard input and the file system it starts in. *)
Variable run_process : list string -> list byte -> filesystem -> proc_result.

(** Whether the standard output can encode a path. *)
Variable writable : string -> bool.

(** [tempfile.NamedTemporaryFile(suffix=..., delete=False)] followed by the
    end of its [with] block: a new empty file, whose name is returned. *)
Definition NamedTemporaryFile (suffix : string) : M Machine string :=
  stem <- (fun m => lift (temp_stem (fs m)) m) ;;
  let name := stem ++ suffix in
  taken <- gets (fun m => path_exists (fs m) name) ;;
  if taken : bool
  then raise FileExistsError
  else modify (fun m => set_fs (<[name := File [] false]> (fs m)) m) ;;;
       ret name.

(** [subprocess.run(cmd_list, input=..., check=True, shell=False)] with
    both output streams captured. *)
Definition subprocess_run (cmd_list : list string) (input : list byte) : M Machine unit :=
  modify (add_call cmd_list input) ;;;
  r <- gets (fun m => run_process cmd_list input (fs m)) ;;
  match r with
  | SpawnFailed e => raise e
  | Exited returncode out err fs' =>
      modify (set_fs fs') ;;;
      if Z.eqb returncode 0 then ret tt else raise (CalledProcessError returncode err)
  end.

(** [wave.open(path, "rb")] and [wf.readframes(wf.getnframes())]. *)
Definition wave_read (path : string) : M Machine (list byte) :=
  data <- (fun m => lift (read_file (fs m) path) m) ;;
  match wave_readframes data with
  | WavFrames frames => ret frames
  | WavMalformed => raise WaveError
  | WavTruncated => raise EOFError
  end.

(** Lines 71-81: the argument list. *)
Definition build_cmd (self : PiperEngine) (v : PiperVoice)
    (output_wav_path : string) (fs : filesystem) : list string :=
  let cmd_list := [piper_path self; "-m"; model_file v; "-f"; output_wav_path] in
  let cmd_list :=
    match config_file v with
    | Some c =>
        if str_truthy c && path_exists fs c
        then (cmd_list ++ ["-c"; c])%list
        else cmd_list
    | None => cmd_list
    end in
  if py_float_ne (length_scale self) float_one
  then (cmd_list ++ ["--length_scale"; str_of_float (length_scale self)])%list
  else cmd_list.

(** Lines 68-95: the body of the [try]. *)
Definition synthesize_body (v : PiperVoice) (text : list N) : M Machine bool :=
  name <- NamedTemporaryFile ".wav" ;;
  modify (set_output_wav_path name) ;;;
  cmd_list <- gets (fun m => build_cmd (self m) v name (fs m)) ;;
  input <- lift (encode_utf8 text) ;;
  subprocess_run cmd_list input ;;;
  audio_data <- wave_read name ;;
  queue_put audio_data ;;;
  ret true.

(** Lines 97-108: the [except] clauses, in their order. *)
Definition synthesize_handlers (e : exn) : option (M Machine bool) :=
  match e with
  | FileNotFoundError =>
      Some (p <- gets (fun m => piper_path (self m)) ;;
            print writable (LogExeNotFound p) ;;; ret false)
  | CalledProcessError returncode err =>
      Some (print writable (LogRunError returncode err) ;;; ret false)
  | WaveError =>
      Some (p <- gets output_wav_path ;;
            print writable (LogWavError p e) ;;; ret false)
  | _ => Some (print writable (LogUnexpected e) ;;; ret false)
  end.

(** Lines 109-114: the [finally] clause. *)
Definition synthesize_cleanup : M Machine unit :=
  p <- gets output_wav_path ;;
  there <- gets (fun m => str_truthy p && isfile (fs m) p) ;;
  if there : bool
  then try_except
         (fs' <- (fun m => lift (os_remove (fs m) p) m) ;; modify (set_fs fs'))
         (fun _ => Some (ret tt))
  else ret tt.

(** Lines 67-108: the [try] with its [except] clauses, without the
    [finally] clause. *)
Definition synthesize_try (v : PiperVoice) (text : list N) : M Machine bool :=
  try_except (synthesize_body v text) synthesize_handlers.

(** [PiperEngine.synthesize]. *)
Definition synthesize (text : list N) : M Machine bool :=
  s <- gets self ;;
  match voice s with
  | Some v =>
      if str_truthy (model_file v)
      then modify (set_output_wav_path "") ;;;
           try_finally (synthesize_try v text) synthesize_cleanup
      else print writable LogVoiceNotSet ;;; ret false
  | None => print writable LogVoiceNotSet ;;; ret false
  end.

(** *** The paths through one call

    The relations below list, path by path, what the body of the [try]
    statement of [synthesize] returns or raises and the machine it leaves;
    they are proved from [synthesize_body] in [synthesize_body_path]. *)

(** The line the matching [except] clause prints for [e]. *)
Definition handler_line (e : exn) (m : Machine) : log_line :=
  match e with
  | FileNotFoundError => LogExeNotFound (piper_path (self m))
  | CalledProcessError returncode err => LogRunError returncode err
  | WaveError => LogWavError (output_wav_path m) e
  | _ => LogUnexpected e
  end.

(** What the [except] clause for [e] gives: false once its line is
    written, or the [UnicodeEncodeError] of [print]. *)
Definition handle (e : exn) (m : Machine) : outcome bool * Machine :=
  if line_writable writable (handler_line e m)
  then (Ret false, add_log (handler_line e m) m)
  else (Raise UnicodeEncodeError, m).

(** The machine after the temporary file [name] was created and its name
    stored in [output_wav_path]. *)
Definition after_temp (name : string) (m : Machine) : Machine :=
  set_output_wav_path name (set_fs (<[name := File [] false]> (fs m)) m).

(** The paths of the body from line 71 on, the temporary file [name] being
    there. *)
Inductive run_path (v : PiperVoice) (text : list N) (name : string) (m : Machine)
    : outcome bool -> Machine -> Prop :=
| run_encode_fail e :
    encode_utf8 text = inl e ->
    run_path v text name m (Raise e) m
| run_spawn_fail input e :
    encode_utf8 text = inr input ->
    run_process (build_cmd (self m) v name (fs m)) input (fs m) = SpawnFailed e ->
    run_path v text name m (Raise e)
      (add_call (build_cmd (self m) v name (fs m)) input m)
| run_exit_nonzero input returncode out err fs' :
    encode_utf8 text = inr input ->
    run_process (build_cmd (self m) v name (fs m)) input (fs m)
      = Exited returncode out err fs' ->
    returncode <> 0 ->
    run_path v text name m (Raise (CalledProcessError returncode err))
      (set_fs fs' (add_call (build_cmd (self m) v name (fs m)) input m))
| run_unreadable input out err fs' e :
    encode_utf8 text = inr input ->
    run_process (build_cmd (self m) v name (fs m)) input (fs m)
      = Exited 0 out err fs' ->
    read_file fs' name = inl e ->
    run_path v text name m (Raise e)
      (set_fs fs' (add_call (build_cmd (self m) v name (fs m)) input m))
| run_wav_rejected input out err fs' data e :
    encode_utf8 text = inr input ->
    run_process (build_cmd (self m) v name (fs m)) input (fs m)
      = Exited 0 out err fs' ->
    read_file fs' name = inr data ->
    (wave_readframes data = WavMalformed /\ e = WaveError \/
     wave_readframes data = WavTruncated /\ e = EOFError) ->
    run_path v text name m (Raise e)
      (set_fs fs' (add_call (build_cmd (self m) v name (fs m)) input m))
| run_ok input out err fs' data frames :
    encode_utf8 text = inr input ->
    run_process (build_cmd (self m) v name (fs m)) input (fs m)
      = Exited 0 out err fs' ->
    read_file fs' name = inr data ->
    wave_readframes data = WavFrames frames ->
    run_path v text name m (Ret true)
      (enqueue frames
         (set_fs fs' (add_call (build_cmd (self m) v name (fs m)) input m))).

(** The paths through the whole body of the [try] statement. *)
Inductive body_path (v : PiperVoice) (text : list N) (m : Machine)
    : outcome bool -> Machine -> Prop :=
| path_no_temp e :
    temp_stem (fs m) = inl e ->
    body_path v text m (Raise e) m
| path_name_taken stem :
    temp_stem (fs m) = inr stem ->
    path_exists (fs m) (stem ++ ".wav") = true ->
    body_path v text m (Raise FileExistsError) m
| path_started stem o m' :
    temp_stem (fs m) = inr stem ->
    path_exists (fs m) (stem ++ ".wav") = false ->
    run_path v text (stem ++ ".wav") (after_temp (stem ++ ".wav") m) o m' ->
    body_path v text m o m'.

(** What the [try] statement gives from what its body gave. *)
Definition after_body (r : outcome bool * Machine) : outcome bool * Machine :=
  match r with
  | (Ret b, m) => (Ret b, m)
  | (Raise e, m) => handle e m
  end.

End Engine.

(** ** Vocabulary of the specification *)

(** The value of the "sample_rate" field of the "audio" object of a config,
    when the config is an object that has an "audio" object with that
    field. *)
Definition audio_sample_rate (j : json) : option json :=
  match j with
  | JObj m =>
      match m !! "audio" with
      | Some (JObj a) => a !! "sample_rate"
      | _ => None
      end
  | _ => None
  end.

(** The value of the top-level "sample_rate" field of a config. *)
Definition top_sample_rate (j : json) : option json :=
  match j with
  | JObj m => m !! "sample_rate"
  | _ => None
  end.

(** The "audio" field of a config is absent or is an object. *)
Definition audio_absent_or_object (j : json) : Prop :=
  match j with
  | JObj m =>
      match m !! "audio" with
      | None | Some (JObj _) => True
      | Some _ => False
      end
  | _ => False
  end.

(** ** A concrete world, for the examples *)

Module Demo.

(** The double-quote character, and a JSON string literal. *)
Definition dq : string := String (Ascii.ascii_of_nat 34) EmptyString.

Definition quoted (s : string) : string := dq ++ s ++ dq.

(** Four config documents. *)
Definition nested_and_top : string :=
  "{" ++ quoted "audio" ++ ": {" ++ quoted "sample_rate" ++ ": 22050}, "
      ++ quoted "sample_rate" ++ ": 16000}".

Definition null_audio_and_top : string :=
  "{" ++ quoted "audio" ++ ": null, " ++ quoted "sample_rate" ++ ": 22050}".

Definition top_only : string :=
  "{" ++ quoted "sample_rate" ++ ": 16000}".

Definition no_rate : string :=
  "{" ++ quoted "dataset" ++ ": " ++ quoted "demo" ++ "}".

(** [json.load] on the four documents; every other text of the examples
    is not JSON. *)
Definition json_load (data : list byte) : option json :=
  let text := string_of_list_byte data in
  if String.eqb text nested_and_top then
    Some (JObj (<["audio" := JObj {["sample_rate" := JInt 22050]}]>
                  {["sample_rate" := JInt 16000]}))
  else if String.eqb text null_audio_and_top then
    Some (JObj (<["audio" := JNull]> {["sample_rate" := JInt 22050]}))
  else if String.eqb text top_only then
    Some (JObj {["sample_rate" := JInt 16000]})
  else if String.eqb text no_rate then
    Some (JObj {["dataset" := JStr "demo"]})
  else None.

(** [int] on the strings of the examples. *)
Definition int_of_str (s : string) : option Z :=
  if String.eqb s "22050" then Some 22050 else None.

Definition file (text : string) : node := File (list_byte_of_string text) false.

(** The float nearest to 0.8. *)
Definition float_0_8 : py_float := FFinite false 7205759403792794 (-53).

(** [str] on the floats of the examples. *)
Definition str_of_float (f : py_float) : string :=
  if py_float_eqb f float_0_8 then "0.8" else "1.0".

(** A reader that takes 44 bytes of header starting with RIFF. *)
Definition wave_readframes (data : list byte) : wav_result :=
  if (length data <? 44)%nat then WavTruncated
  else if String.eqb (string_of_list_byte (firstn 4 data)) "RIFF"
       then WavFrames (skipn 44 data)
       else WavMalformed.

Definition frames : list byte := [x01; x00; xff; x7f].

Definition wav : list byte :=
  (list_byte_of_string "RIFF" ++ repeat x00 40 ++ frames)%list.

Definition temp_stem (_ : filesystem) : exn + string := inr "/tmp/tmpk3v9x2ab".

Definition temp_path : string := "/tmp/tmpk3v9x2ab.wav".

(** An executable that writes [wav] to the file named after [-f] and exits
    with 0; [locked] says whether the file it leaves can be removed. *)
Definition piper_writes (locked : bool) (cmd_list : list string) (input : list byte)
    (fs : filesystem) : proc_result :=
  Exited 0 [] [] (<[nth 4 cmd_list EmptyString := File wav locked]> fs).

(** An executable that exits with 1. *)
Definition piper_fails (cmd_list : list string) (input : list byte)
    (fs : filesystem) : proc_result :=
  Exited 1 [] (list_byte_of_string "no model") fs.

(** No executable at that path. *)
Definition piper_missing (cmd_list : list string) (input : list byte)
    (fs : filesystem) : proc_result :=
  SpawnFailed FileNotFoundError.

Definition the_voice : PiperVoice :=
  {| model_file := "en.onnx"; config_file := Some "en.onnx.json";
     native_sample_rate := 22050 |}.

Definition the_fs : filesystem :=
  <["en.onnx" := file "model"]> {["en.onnx.json" := file nested_and_top]}.

Definition engine (voice : option PiperVoice) (length_scale : py_float) : PiperEngine :=
  PiperEngine_init ∅ "posix" None voice length_scale.

Definition machine (e : PiperEngine) : Machine :=
  {| self := e; fs := the_fs; stdout := []; proc_calls := [];
     output_wav_path := EmptyString |}.

(** The text "hi", and a text with a lone surrogate. *)
Definition hi : list N := [104%N; 105%N].

Definition lone_surrogate : list N := [104%N; 0xD800%N].

(** A standard output that writes the ASCII paths of the examples and
    refuses a path with any other byte. *)
Definition writable (path : string) : bool :=
  forallb (fun b => (Byte.to_N b <? 0x80)%N) (list_byte_of_string path).

(** A path with the byte E9, which is not UTF-8 on its own. *)
Definition latin1_path : string :=
  "/opt/pip" ++ String (Ascii.ascii_of_nat 233) "r/piper".

(** [synthesize] with the library of the examples and the executable
    [piper]. *)
Definition synth (piper : list string -> list byte -> filesystem -> proc_result)
    : list N -> M Machine bool :=
  synthesize str_of_float wave_readframes temp_stem piper writable.

(** Machines with the example voice at scale 1.0 and at scale 0.8, and one
    with no voice. *)
Definition ready : Machine := machine (engine (Some the_voice) float_one).

Definition ready_0_8 : Machine := machine (engine (Some the_voice) float_0_8).

Definition voiceless : Machine := machine (engine None float_one).

(** A machine whose executable path came from PIPER_PATH with a byte that
    is not UTF-8. *)
Definition ready_latin1 : Machine :=
  machine (PiperEngine_init {["PIPER_PATH" := latin1_path]} "posix" None
             (Some the_voice) float_one).

End Demo.

(** ** Statements about a config *)

(** The field the specification selects: audio.sample_rate when the "audio"
    object has it, the top-level "sample_rate" otherwise. *)
Definition selected_rate (j v : json) : Prop :=
  audio_sample_rate j = Some v \/
  (audio_sample_rate j = None /\ top_sample_rate j = Some v).

(** The same, with the "audio" field absent or an object when the
    top-level field is the one selected. *)
Definition selected_rate_checked (j v : json) : Prop :=
  audio_sample_rate j = Some v \/
  (audio_absent_or_object j /\ audio_sample_rate j = None /\
   top_sample_rate j = Some v).

(** The ways a config gives no sample rate: no file, a file that cannot be
    read, invalid JSON, no sample-rate field, a value [int] refuses. *)
Inductive config_unusable (json_load : list byte -> option json)
    (int_of_str : string -> option Z) (fs : filesystem) (model : string)
    (cfg : option string) : Prop :=
| no_config_file :
    config_present fs (resolve_config fs model cfg) = false ->
    config_unusable json_load int_of_str fs model cfg
| unreadable_config c e :
    resolve_config fs model cfg = Some c ->
    read_file fs c = inl e ->
    config_unusable json_load int_of_str fs model cfg
| invalid_json c data :
    resolve_config fs model cfg = Some c ->
    read_file fs c = inr data ->
    json_load data = None ->
    config_unusable json_load int_of_str fs model cfg
| no_rate_field c data j :
    resolve_config fs model cfg = Some c ->
    read_file fs c = inr data ->
    json_load data = Some j ->
    audio_sample_rate j = None ->
    top_sample_rate j = None ->
    config_unusable json_load int_of_str fs model cfg
| rate_not_coercible c data j v e :
    resolve_config fs model cfg = Some c ->
    read_file fs c = inr data ->
    json_load data = Some j ->
    selected_rate j v ->
    py_int int_of_str v = inl e ->
    config_unusable json_load int_of_str fs model cfg.

(** ** The remaining operations *)

(** [PiperEngine.get_voices]. *)
Definition get_voices (self : PiperEngine) : list PiperVoice := [].

(** [str(n)] on an integer: decimal digits, with a minus sign when
    negative. *)
Definition str_of_int (z : Z) : string :=
  DecimalString.NilZero.string_of_int (Z.to_int z).

(** How an f-string prints an optional string: [None] prints as None. *)
Definition str_of_option (o : option string) : string :=
  match o with
  | Some s => s
  | None => "None"
  end.

(** [PiperVoice.__repr__]. *)
Definition PiperVoice_repr (v : PiperVoice) : string :=
  "PiperVoice(model_file='" ++ model_file v ++ "', " ++
  "config_file='" ++ str_of_option (config_file v) ++
  "', native_sample_rate=" ++ str_of_int (native_sample_rate v) ++ ")".

(** The machine with another engine object. *)
Definition set_self (e : PiperEngine) (m : Machine) : Machine :=
  {| self := e; fs := fs m; stdout := stdout m;
     proc_calls := proc_calls m; output_wav_path := output_wav_path m |}.

(** A code point that UTF-8 cannot encode: a surrogate, or a number past
    the last code point. *)
Definition unencodable (c : N) : bool :=
  ((0xD800 <=? c) && (c <=? 0xDFFF) || (0x10FFFF <? c))%N.

(** More executables for the examples. *)
Module DemoExtra.

(** An executable that removes the file named after [-f] and exits
    with 0. *)
Definition piper_removes (cmd_list : list string) (input : list byte)
    (fs : filesystem) : proc_result :=
  Exited 0 [] [] (delete (nth 4 cmd_list EmptyString) fs).

(** An executable that writes 44 bytes that are no WAV header and exits
    with 0. *)
Definition piper_garbles (cmd_list : list string) (input : list byte)
    (fs : filesystem) : proc_result :=
  Exited 0 [] [] (<[nth 4 cmd_list EmptyString := File (repeat x2a 44) false]> fs).

(** No temporary directory is usable. *)
Definition no_temp_dir (_ : filesystem) : exn + string := inl FileNotFoundError.

(** A voice with an empty model path. *)
Definition empty_voice : PiperVoice :=
  {| model_file := EmptyString; config_file := None; native_sample_rate := 24000 |}.

(** A config whose "audio" field is a string. *)
Definition text_audio_and_top : string :=
  "{" ++ Demo.quoted "audio" ++ ": " ++ Demo.quoted "mono" ++ ", "
      ++ Demo.quoted "sample_rate" ++ ": 16000}".

(** [json.load] on that document and on those of [Demo]. *)
Definition json_load (data : list byte) : option json :=
  if String.eqb (string_of_list_byte data) text_audio_and_top then
    Some (JObj (<["audio" := JStr "mono"]> {["sample_rate" := JInt 16000]}))
  else Demo.json_load data.

(** The example file system with one more file. *)
Definition bigger_fs : filesystem := <["notes.txt" := Demo.file "hello"]> Demo.the_fs.

End DemoExtra.

(** ** Properties of PiperVoice *)

Section VoiceProperties.

Variable json_load : list byte -> option json.
Variable int_of_str : string -> option Z.

#[local] Abbreviation read_rate := (read_sample_rate json_load int_of_str).
#[local] Abbreviation init := (PiperVoice_init json_load int_of_str).
#[local] Abbreviation to_int := (py_int int_of_str).

#[local] Ltac step :=
  cbv beta iota delta [read_sample_rate bind lift ret raise gets py_in py_getitem].
#[local] Ltac close :=
  solve [cbv beta iota; eexists; split;
         [reflexivity | intros ? ?; simplify_eq; eauto 10]].

(** Reading the sample rate leaves the file system as it was; a returned
    value other than the default is the coercion of the field the code
    selected. *)
Lemma read_sample_rate_result c d fs :
  exists o, read_rate c d fs = (o, fs) /\
    forall n, o = Ret n -> n = d \/
      exists data lk j v,
        fs !! c = Some (File data lk) /\ json_load data = Some j /\
        (audio_sample_rate j = Some v \/
         (audio_sample_rate j = None /\ top_sample_rate j = Some v)) /\
        to_int v = inr n.
Proof.
  step. unfold read_file.
  destruct (fs !! c) as [[data lk|]|] eqn:Hc; [|close..].
  destruct (json_load data) as [j|] eqn:Hj; [|close].
  assert (Hsel : forall v n, 
    (audio_sample_rate j = Some v \/
         (audio_sample_rate j = None /\ top_sample_rate j = Some v)) ->
    to_int v = inr n -> n = d \/
      exists data0 lk0 j0 v0,
        Some (File data lk) = Some (File data0 lk0) /\ json_load data0 = Some j0 /\
        (audio_sample_rate j0 = Some v0 \/
         (audio_sample_rate j0 = None /\ top_sample_rate j0 = Some v0)) /\
        to_int v0 = inr n).
  { intros v n Hv Hn. right. exists data, lk, j, v. auto. }
  destruct j as [ |b|z|f|s|l|m]; try close.
  - destruct (is_substring "audio" s); [close|].
    destruct (is_substring "sample_rate" s); close.
  - destruct (existsb _ l); [close|].
    destruct (existsb _ l); close.
  - unfold audio_sample_rate, top_sample_rate in Hsel.
    destruct (m !! "audio") as [a|] eqn:Ha.
    + destruct a as [ |b|z|f|s|l|ma]; try close.
      * destruct (is_substring "sample_rate" s); [close|].
        destruct (m !! "sample_rate") as [v|]; [|close].
        destruct (to_int v) eqn:Hv; close.
      * destruct (existsb _ l); [close|].
        destruct (m !! "sample_rate") as [v|]; [|close].
        destruct (to_int v) eqn:Hv; close.
      * destruct (ma !! "sample_rate") as [v|] eqn:Hma.
        -- destruct (to_int v) eqn:Hv; close.
        -- destruct (m !! "sample_rate") as [v|]; [|close].
           destruct (to_int v) eqn:Hv; close.
    + destruct (m !! "sample_rate") as [v|]; [|close].
      destruct (to_int v) eqn:Hv; close.
Qed.

(** On a config that parses, with the "audio" section absent or an object,
    the code selects audio.sample_rate first and the top-level field
    second. *)
Lemma read_sample_rate_selected c d fs data lk j v :
  fs !! c = Some (File data lk) ->
  json_load data = Some j ->
  audio_sample_rate j = Some v \/
    (audio_absent_or_object j /\ audio_sample_rate j = None /\
     top_sample_rate j = Some v) ->
  read_rate c d fs = lift (to_int v) fs.
Proof.
  intros Hc Hj Hsel. step. unfold read_file. rewrite Hc, Hj.
  unfold audio_sample_rate, top_sample_rate, audio_absent_or_object in Hsel.
  destruct j as [| | | | | |m]; try (destruct Hsel as [?|(?&?&?)]; done).
  destruct (m !! "audio") as [a|] eqn:Ha.
  - destruct a as [| | | | | |ma]; try (destruct Hsel as [?|(?&?&?)]; done).
    destruct Hsel as [Hv|(_&Hn&Hv)].
    + rewrite Hv. done.
    + rewrite Hn, Hv. done.
  - destruct Hsel as [?|(_&_&Hv)]; [done|]. rewrite Hv. done.
Qed.

(** Construction returns a descriptor and leaves the file system as it was;
    its rate is the default unless the config was present and read. *)
Lemma PiperVoice_init_run model cfg fs :
  exists rate,
    init model cfg fs =
      (Ret {| model_file := model; config_file := resolve_config fs model cfg;
              native_sample_rate := rate |}, fs) /\
    match resolve_config fs model cfg with
    | Some c =>
        if config_present fs (Some c)
        then match fst (read_rate c 24000 fs) with
             | Ret n => rate = n
             | Raise _ => rate = 24000
             end
        else rate = 24000
    | None => rate = 24000
    end.
Proof.
  unfold PiperVoice_init.
  cbv beta iota delta [bind gets ret try_except].
  destruct (resolve_config fs model cfg) as [c|] eqn:Hr; [|eauto].
  destruct (config_present fs (Some c)) eqn:Hp; [|eauto].
  destruct (read_sample_rate_result c 24000 fs) as (o & Ho & _).
  rewrite Ho. destruct o as [n|e]; eexists; split; reflexivity.
Qed.

(** C6, as amended.  For every resolved config file that parses as JSON: if
    an "audio" object with a "sample_rate" field is present, the
    descriptor's sample rate is that value coerced to integer, whatever the
    top-level "sample_rate" is; otherwise, if the "audio" field is absent
    or is an object and a top-level "sample_rate" is present, the sample
    rate is that value coerced to integer. *)
Theorem config_sample_rate_selected model cfg fs c data lk j v n :
  resolve_config fs model cfg = Some c ->
  str_truthy c = true ->
  fs !! c = Some (File data lk) ->
  json_load data = Some j ->
  selected_rate_checked j v ->
  to_int v = inr n ->
  exists pv, init model cfg fs = (Ret pv, fs) /\ native_sample_rate pv = n.
Proof.
  intros Hr Ht Hc Hj Hsel Hn.
  destruct (PiperVoice_init_run model cfg fs) as (rate & Hinit & Hrate).
  eexists; split; [exact Hinit|]. cbn [native_sample_rate].
  rewrite Hr in Hrate. unfold config_present, path_exists in Hrate.
  rewrite Ht, Hc in Hrate. cbn [andb] in Hrate.
  rewrite (read_sample_rate_selected c 24000 fs data lk j v Hc Hj Hsel) in Hrate.
  rewrite Hn in Hrate. exact Hrate.
Qed.

(** C7.  Construction never raises, whatever the config is, and when the
    config is unusable (no file, unreadable file, invalid JSON, no
    sample-rate field, or a value that [int] refuses) the sample rate is
    the default 24000. *)
Theorem PiperVoice_init_never_raises model cfg fs :
  exists pv,
    init model cfg fs = (Ret pv, fs) /\
    (config_unusable json_load int_of_str fs model cfg ->
     native_sample_rate pv = 24000).
Proof.
  destruct (PiperVoice_init_run model cfg fs) as (rate & Hinit & Hrate).
  eexists; split; [exact Hinit|]. cbn [native_sample_rate]. intros Hbad.
  destruct (resolve_config fs model cfg) as [c|] eqn:Hr; [|done].
  destruct (config_present fs (Some c)) eqn:Hp; [|done].
  destruct (read_sample_rate_result c 24000 fs) as (o & Ho & Hsel).
  rewrite Ho in Hrate. cbn [fst] in Hrate.
  destruct o as [n|e]; [|done]. subst rate.
  destruct (Hsel n eq_refl) as [Hd|(data & lk & j & v & Hc & Hj & Hv & Hn)]; [done|].
  assert (Hread : read_file fs c = inr data) by (unfold read_file; by rewrite Hc).
  destruct Hbad as [Hno|c' e Hr' He|c' d' Hr' Hd' Hj'|c' d' j' Hr' Hd' Hj' Ha Ht
                   |c' d' j' v' e Hr' Hd' Hj' Hv' He];
    rewrite ?Hr in *; simplify_eq; try congruence.
  - destruct Hv as [?|[_ ?]]; congruence.
  - unfold selected_rate in *.
    destruct Hv as [?|[? ?]], Hv' as [?|[? ?]]; congruence.
Qed.

End VoiceProperties.

(** The config of the example voice has both fields: audio.sample_rate
    wins. *)
Lemma config_sample_rate_selected_witness :
  exists pv,
    PiperVoice_init Demo.json_load Demo.int_of_str "en.onnx" None Demo.the_fs
      = (Ret pv, Demo.the_fs) /\
    native_sample_rate pv = 22050.
Proof.
  apply (config_sample_rate_selected Demo.json_load Demo.int_of_str
           "en.onnx" None Demo.the_fs "en.onnx.json"
           (list_byte_of_string Demo.nested_and_top) false
           (JObj (<["audio" := JObj {["sample_rate" := JInt 22050]}]>
                    {["sample_rate" := JInt 16000]}))
           (JInt 22050) 22050).
  - vm_compute; reflexivity.
  - reflexivity.
  - vm_compute; reflexivity.
  - vm_compute; reflexivity.
  - left. vm_compute; reflexivity.
  - reflexivity.
Defined.

(** A config whose text is not JSON: the descriptor is built with 24000. *)
Lemma PiperVoice_init_never_raises_witness :
  exists pv,
    PiperVoice_init Demo.json_load Demo.int_of_str "bad.onnx" None
      {["bad.onnx.json" := Demo.file "{not json"]}
      = (Ret pv, {["bad.onnx.json" := Demo.file "{not json"]}) /\
    native_sample_rate pv = 24000.
Proof.
  destruct (PiperVoice_init_never_raises Demo.json_load Demo.int_of_str
              "bad.onnx" None {["bad.onnx.json" := Demo.file "{not json"]})
    as (pv & Hinit & Hrate).
  exists pv. split; [exact Hinit|]. apply Hrate.
  apply invalid_json with (c := "bad.onnx.json")
                          (data := list_byte_of_string "{not json").
  - vm_compute; reflexivity.
  - vm_compute; reflexivity.
  - vm_compute; reflexivity.
Defined.

(** C6 as stated fails: with "audio" set to null and a top-level
    "sample_rate" of 22050, no "audio" object with a "sample_rate" field is
    present and the top-level field is, yet the rate stays 24000: the
    membership test on null raises and the [except] clause swallows it. *)
Lemma config_sample_rate_counterexample :
  ~ (forall json_load int_of_str model cfg fs c data lk j v n,
       resolve_config fs model cfg = Some c ->
       str_truthy c = true ->
       fs !! c = Some (File data lk) ->
       json_load data = Some j ->
       selected_rate j v ->
       py_int int_of_str v = inr n ->
       exists pv,
         PiperVoice_init json_load int_of_str model cfg fs = (Ret pv, fs) /\
         native_sample_rate pv = n).
Proof.
  intros Hclaim.
  destruct (Hclaim Demo.json_load Demo.int_of_str "v.onnx" None
              {["v.onnx.json" := Demo.file Demo.null_audio_and_top]}
              "v.onnx.json" (list_byte_of_string Demo.null_audio_and_top) false
              (JObj (<["audio" := JNull]> {["sample_rate" := JInt 22050]}))
              (JInt 22050) 22050)
    as (pv & Hinit & Hrate).
  - vm_compute; reflexivity.
  - reflexivity.
  - vm_compute; reflexivity.
  - vm_compute; reflexivity.
  - right. split; vm_compute; reflexivity.
  - reflexivity.
  - vm_compute in Hinit. injection Hinit as <-. discriminate Hrate.
Qed.

(** ** Properties of PiperEngine *)

Section EngineProperties.

Variable str_of_float : py_float -> string.
Variable wave_readframes : list byte -> wav_result.
Variable temp_stem : filesystem -> exn + string.
Variable run_process : list string -> list byte -> filesystem -> proc_result.
Variable writable : string -> bool.

#[local] Abbreviation synth :=
  (synthesize str_of_float wave_readframes temp_stem run_process writable).
#[local] Abbreviation synth_try :=
  (synthesize_try str_of_float wave_readframes temp_stem run_process writable).
#[local] Abbreviation body :=
  (synthesize_body str_of_float wave_readframes temp_stem run_process).
#[local] Abbreviation paths :=
  (body_path str_of_float wave_readframes temp_stem run_process).
#[local] Abbreviation runs :=
  (run_path str_of_float wave_readframes run_process).
#[local] Abbreviation cmd_of := (build_cmd str_of_float).

#[local] Ltac monad :=
  cbv beta iota delta [bind gets modify lift ret raise try_except try_finally
                       queue_put].

(** What [print] does. *)
Lemma print_run line m :
  print writable line m =
    if line_writable writable line
    then (Ret tt, add_log line m)
    else (Raise UnicodeEncodeError, m).
Proof. unfold print. by destruct (line_writable writable line). Qed.

(** Every [except] clause prints its line and returns false, unless the
    line cannot be written. *)
Lemma synthesize_handlers_run e m :
  exists h, synthesize_handlers writable e = Some h /\ h m = handle writable e m.
Proof.
  destruct e; eexists; (split; [reflexivity|]); unfold handle; monad;
    rewrite print_run; cbn [handler_line];
    by destruct (line_writable writable _).
Qed.

(** The two ways an [except] clause ends. *)
Lemma handle_cases e m o m' :
  handle writable e m = (o, m') ->
  (line_writable writable (handler_line e m) = true /\
   o = Ret false /\ m' = add_log (handler_line e m) m) \/
  (line_writable writable (handler_line e m) = false /\
   o = Raise UnicodeEncodeError /\ m' = m).
Proof.
  unfold handle. destruct (line_writable writable _); intros [= <- <-]; auto.
Qed.

(** The body of the [try] statement follows one of the listed paths. *)
Lemma synthesize_body_path v text m o m' :
  body v text m = (o, m') -> paths v text m o m'.
Proof.
  unfold synthesize_body, NamedTemporaryFile, subprocess_run, wave_read.
  monad.
  destruct (temp_stem (fs m)) as [e|stem] eqn:Ht; cbv beta iota.
  { intros [= <- <-]. by apply path_no_temp. }
  destruct (path_exists (fs m) (stem ++ ".wav")) eqn:Hex; cbv beta iota.
  { intros [= <- <-]. by eapply path_name_taken. }
  set (name := stem ++ ".wav") in *.
  change (set_output_wav_path name (set_fs (<[name:=File [] false]> (fs m)) m))
    with (after_temp name m).
  set (m1 := after_temp name m).
  intros Hrun. apply (path_started _ _ _ _ _ _ _ stem); [done..|].
  fold name m1. revert Hrun.
  destruct (encode_utf8 text) as [e|input] eqn:Henc; cbv beta iota.
  { intros [= <- <-]. by apply run_encode_fail. }
  set (cmd := build_cmd str_of_float (self m1) v name (fs m1)).
  change (fs (add_call cmd input m1)) with (fs m1).
  destruct (run_process cmd input (fs m1)) as [e|code out err fs'] eqn:Hp;
    cbv beta iota.
  { intros [= <- <-]. by apply run_spawn_fail. }
  destruct (Z.eqb_spec code 0) as [->|Hne]; cbv beta iota.
  2:{ intros [= <- <-]. by eapply run_exit_nonzero. }
  change (fs (set_fs fs' (add_call cmd input m1))) with fs'.
  destruct (read_file fs' name) as [e|data] eqn:Hr; cbv beta iota.
  { intros [= <- <-]. by eapply run_unreadable. }
  destruct (wave_readframes data) as [frames| |] eqn:Hw; cbv beta iota.
  - intros [= <- <-]. by eapply run_ok.
  - intros [= <- <-]. eapply run_wav_rejected with (e := WaveError); eauto.
  - intros [= <- <-]. eapply run_wav_rejected with (e := EOFError); eauto.
Qed.

(** The [try] statement is its body followed by the matching clause. *)
Lemma synthesize_try_run v text m :
  synth_try v text m = after_body writable (body v text m).
Proof.
  unfold synthesize_try, try_except, after_body.
  destruct (body v text m) as [[b|e] m1]; [done|].
  by destruct (synthesize_handlers_run e m1) as (h & -> & ->).
Qed.

(** A path from line 71 on keeps [output_wav_path], the engine's settings
    and the standard output; it leaves the queue as it was unless it
    returns true, and it calls [subprocess.run] at most once, with the
    argument list of [build_cmd]. *)
Lemma run_path_frame v text name m o m' :
  runs v text name m o m' ->
  output_wav_path m' = output_wav_path m /\
  stdout m' = stdout m /\
  piper_path (self m') = piper_path (self m) /\
  voice (self m') = voice (self m) /\
  length_scale (self m') = length_scale (self m) /\
  (o = Ret true \/ (exists e, o = Raise e) /\ queue (self m') = queue (self m)) /\
  (proc_calls m' = proc_calls m /\ (exists e, encode_utf8 text = inl e) \/
   exists input,
     encode_utf8 text = inr input /\
     proc_calls m' =
       (proc_calls m ++ [(cmd_of (self m) v name (fs m), input)])%list).
Proof.
  intros Hp.
  destruct Hp; do 5 (split; [reflexivity|]);
    (split; [eauto|]); first [left; by eauto | right; by eauto].
Qed.

(** The [finally] clause never raises; it touches nothing but the file at
    [output_wav_path], and after it that path is not a removable file. *)
Lemma synthesize_cleanup_run m :
  exists m',
    synthesize_cleanup m = (Ret tt, m') /\
    self m' = self m /\ stdout m' = stdout m /\ proc_calls m' = proc_calls m /\
    (forall q, q <> output_wav_path m -> fs m' !! q = fs m !! q) /\
    (str_truthy (output_wav_path m) = true ->
     forall d, fs m' !! output_wav_path m <> Some (File d false)).
Proof.
  unfold synthesize_cleanup, os_remove, isfile. monad.
  destruct m as [s f so pc p]. cbn [output_wav_path fs self stdout proc_calls].
  destruct (str_truthy p) eqn:Hp; cbn [andb].
  2:{ eexists; split; [reflexivity|]. repeat split; try done. }
  destruct (f !! p) as [[d [|]|]|] eqn:Hf; cbv beta iota;
    cbn [output_wav_path fs self stdout proc_calls]; rewrite ?Hf; cbv beta iota;
    (eexists; split; [reflexivity|]);
    cbn [output_wav_path fs self stdout proc_calls set_fs];
    repeat split; try done; try (intros _ d'; rewrite Hf; congruence).
  - intros q Hq. by rewrite lookup_delete_ne.
  - intros _ d'. by rewrite lookup_delete_eq.
Qed.

(** With a usable voice, a call is the body of the [try] statement, then
    the matching [except] clause, then the [finally] clause; it gives what
    the [try] statement gave. *)
Lemma synthesize_run text m v :
  voice (self m) = Some v ->
  str_truthy (model_file v) = true ->
  exists o1 m1 o m2 m',
    paths v text (set_output_wav_path EmptyString m) o1 m1 /\
    after_body writable (o1, m1) = (o, m2) /\
    synth_try v text (set_output_wav_path EmptyString m) = (o, m2) /\
    synthesize_cleanup m2 = (Ret tt, m') /\
    synth text m = (o, m').
Proof.
  intros Hv Hm. unfold synthesize. monad. rewrite Hv, Hm.
  rewrite synthesize_try_run.
  destruct (body v text (set_output_wav_path EmptyString m)) as [o1 m1] eqn:Hb.
  apply synthesize_body_path in Hb.
  destruct (after_body writable (o1, m1)) as [o m2] eqn:Ha.
  destruct (synthesize_cleanup_run m2) as (m' & Hc & _).
  rewrite Hc. by exists o1, m1, o, m2, m'.
Qed.

(** Without a usable voice, a call prints its line and returns false. *)
Lemma synthesize_unusable text m :
  voice (self m) = None \/
    (exists v, voice (self m) = Some v /\ str_truthy (model_file v) = false) ->
  synth text m = (Ret false, add_log LogVoiceNotSet m).
Proof.
  intros [Hv|(v & Hv & Hm)]; unfold synthesize; monad; rewrite Hv, ?Hm;
    by rewrite print_run.
Qed.

(** A voice is usable or it is not. *)
Lemma voice_usable_dec (e : PiperEngine) :
  (exists v, voice e = Some v /\ str_truthy (model_file v) = true) \/
  (voice e = None \/
   exists v, voice e = Some v /\ str_truthy (model_file v) = false).
Proof.
  destruct (voice e) as [v|]; [|by right; left].
  destruct (str_truthy (model_file v)) eqn:Hm; [left|right; right]; eauto.
Qed.

(** The name of a temporary file is not the empty string. *)
Lemma temp_name_truthy stem : str_truthy (stem ++ ".wav") = true.
Proof. by destruct stem. Qed.

(** C2.  With a usable voice, when the temporary file is allocated, the
    text is handed to the executable, the executable exits with 0 and the
    file it leaves at the temporary path is a well-formed WAV,
    [synthesize] returns true and the queue gains exactly one buffer, the
    frames of that file. *)
Theorem synthesize_success text m v stem input out err fs' data lk frames :
  voice (self m) = Some v ->
  str_truthy (model_file v) = true ->
  temp_stem (fs m) = inr stem ->
  path_exists (fs m) (stem ++ ".wav") = false ->
  encode_utf8 text = inr input ->
  run_process
    (cmd_of (self m) v (stem ++ ".wav") (<[stem ++ ".wav" := File [] false]> (fs m)))
    input (<[stem ++ ".wav" := File [] false]> (fs m))
    = Exited 0 out err fs' ->
  fs' !! (stem ++ ".wav") = Some (File data lk) ->
  wave_readframes data = WavFrames frames ->
  exists m',
    synth text m = (Ret true, m') /\
    queue (self m') = (queue (self m) ++ [frames])%list.
Proof.
  intros Hv Hm Ht Hex Henc Hrun Hfile Hwav.
  destruct (synthesize_run text m v Hv Hm)
    as (o1 & m1 & o & m2 & m' & Hp & Ha & _ & Hc & Hs).
  destruct (synthesize_cleanup_run m2) as (m3 & Hc3 & Hself & _).
  rewrite Hc in Hc3. injection Hc3 as <-.
  assert (Hread : read_file fs' (stem ++ ".wav") = inr data)
    by (unfold read_file; by rewrite Hfile).
  destruct Hp as [e Ht'|stem' Ht' Hex'|stem' o1 m1 Ht' Hex' Hr];
    cbn [fs set_output_wav_path] in *; try congruence.
  assert (stem' = stem) as -> by congruence.
  destruct Hr as [e He|input' e He Hp|input' code out' err' fs2 He Hp Hcode
                 |input' out' err' fs2 e He Hp Hrd
                 |input' out' err' fs2 data' e He Hp Hrd Hw
                 |input' out' err' fs2 data' frames' He Hp Hrd Hw];
    cbn [fs self after_temp set_output_wav_path set_fs] in *;
    try congruence.
  - destruct Hw as [[? _]|[? _]]; congruence.
  - cbn [after_body] in Ha. injection Ha as <- <-.
    exists m'. split; [exact Hs|]. rewrite Hself.
    assert (frames' = frames) as -> by congruence. reflexivity.
Qed.

(** C4.  Whenever [synthesize] returns false the queue is as it was. *)
Theorem synthesize_false_queue_unchanged text m m' :
  synth text m = (Ret false, m') ->
  queue (self m') = queue (self m).
Proof.
  intros Hs.
  destruct (voice_usable_dec (self m)) as [(v & Hv & Hm)|Hno].
  2:{ rewrite (synthesize_unusable text m Hno) in Hs. by injection Hs as <-. }
  destruct (synthesize_run text m v Hv Hm)
    as (o1 & m1 & o & m2 & m3 & Hp & Ha & _ & Hc & Hs').
  rewrite Hs in Hs'. injection Hs' as <- <-.
  destruct (synthesize_cleanup_run m2) as (m3 & Hc3 & Hself & _).
  rewrite Hc in Hc3. injection Hc3 as <-. rewrite Hself.
  assert (Hq : (exists e, o1 = Raise e) -> queue (self m1) = queue (self m)).
  { destruct Hp as [e Ht|stem Ht Hex|stem o1 m1 Ht Hex Hr]; [done..|].
    destruct (run_path_frame _ _ _ _ _ _ Hr) as (_ & _ & _ & _ & _ & Hq & _).
    intros (e & ->). by destruct Hq as [?|[_ ?]]. }
  destruct o1 as [b|e]; cbn [after_body] in Ha.
  - injection Ha as -> <-.
    inversion Hp as [| |stem o1' m1' Ht Hex Hr]; subst. inversion Hr.
  - apply handle_cases in Ha as [(_ & _ & ->)|(_ & ? & _)]; [|done].
    cbn [self add_log]. eauto.
Qed.

(** C5.  With no voice, or a voice whose model path is empty, [synthesize]
    returns false, prints the error line, and leaves the queue, the list of
    started processes and the file system as they were. *)
Theorem synthesize_voice_not_set text m :
  voice (self m) = None \/
    (exists v, voice (self m) = Some v /\ model_file v = EmptyString) ->
  exists m',
    synth text m = (Ret false, m') /\
    stdout m' = (stdout m ++ [LogVoiceNotSet])%list /\
    queue (self m') = queue (self m) /\
    proc_calls m' = proc_calls m /\
    fs m' = fs m.
Proof.
  intros Hno. rewrite synthesize_unusable; [by eexists|].
  destruct Hno as [?|(v & ? & Hm)]; [by left|right].
  exists v. by rewrite Hm.
Qed.

(** The argument list is the five fixed arguments, then the config flag
    and path when the config path exists, then the length-scale flag and
    value when the scale is not 1.0. *)
Lemma build_cmd_shape (e : PiperEngine) v name (f : filesystem) :
  exists cfg_part ls_part,
    cmd_of e v name f =
      ([piper_path e; "-m"; model_file v; "-f"; name] ++ cfg_part ++ ls_part)%list /\
    match config_file v with
    | Some c =>
        if str_truthy c && path_exists f c
        then cfg_part = ["-c"; c]
        else cfg_part = []
    | None => cfg_part = []
    end /\
    (if py_float_ne (length_scale e) float_one
     then ls_part = ["--length_scale"; str_of_float (length_scale e)]
     else ls_part = []).
Proof.
  unfold build_cmd.
  destruct (config_file v) as [c|];
    [destruct (str_truthy c && path_exists f c)|];
    destruct (py_float_ne (length_scale e) float_one);
    do 2 eexists; (split; [|split; reflexivity]); reflexivity.
Qed.

(** With a usable voice, a fresh temporary name and a text that can be
    encoded, a call starts exactly one process, with the argument list of
    [build_cmd] and the encoded text. *)
Lemma synthesize_calls_once text m v stem input :
  voice (self m) = Some v ->
  str_truthy (model_file v) = true ->
  temp_stem (fs m) = inr stem ->
  path_exists (fs m) (stem ++ ".wav") = false ->
  encode_utf8 text = inr input ->
  exists o m',
    synth text m = (o, m') /\
    proc_calls m' =
      (proc_calls m ++
       [(cmd_of (self m) v (stem ++ ".wav")%string
           (<[(stem ++ ".wav")%string := File [] false]> (fs m)), input)])%list.
Proof.
  intros Hv Hm Ht Hex Henc.
  destruct (synthesize_run text m v Hv Hm)
    as (o1 & m1 & o & m2 & m' & Hp & Ha & _ & Hc & Hs).
  destruct (synthesize_cleanup_run m2) as (m3 & Hc3 & _ & _ & Hcalls & _).
  rewrite Hc in Hc3. injection Hc3 as <-.
  exists o, m'. split; [exact Hs|]. rewrite Hcalls.
  assert (proc_calls m2 = proc_calls m1) as ->.
  { destruct o1 as [b|e]; cbn [after_body] in Ha; [by injection Ha as _ <-|].
    by apply handle_cases in Ha as [(_ & _ & ->)|(_ & _ & ->)]. }
  destruct Hp as [e Ht'|stem' Ht' Hex'|stem' o1 m1 Ht' Hex' Hr];
    cbn [fs set_output_wav_path] in *; try congruence.
  assert (stem' = stem) as -> by congruence.
  destruct (run_path_frame _ _ _ _ _ _ Hr)
    as (_ & _ & _ & _ & _ & _ & [(_ & e & He)|(input' & He & Hadd)]);
    [congruence|].
  rewrite Hadd. cbn [fs self proc_calls after_temp set_output_wav_path set_fs].
  congruence.
Qed.

(** C8.  Whenever a call reaches [subprocess.run] (the voice is usable,
    the temporary file is allocated, the text can be encoded), it starts
    exactly one process, and the argument list of that process is the
    executable, "-m" and the model path, "-f" and the temporary path, then
    "-c" and the config path exactly when the voice has a non-empty config
    path that exists, then "--length_scale" and the scale exactly when the
    scale is not 1.0. *)
Theorem synthesize_argument_list text m v stem input :
  voice (self m) = Some v ->
  str_truthy (model_file v) = true ->
  temp_stem (fs m) = inr stem ->
  path_exists (fs m) (stem ++ ".wav") = false ->
  encode_utf8 text = inr input ->
  exists o m' cfg_part ls_part,
    synth text m = (o, m') /\
    proc_calls m' =
      (proc_calls m ++
       [(([piper_path (self m); "-m"; model_file v; "-f"; (stem ++ ".wav")%string]
            ++ cfg_part ++ ls_part)%list, input)])%list /\
    match config_file v with
    | Some c =>
        if str_truthy c &&
           path_exists (<[stem ++ ".wav" := File [] false]> (fs m)) c
        then cfg_part = ["-c"; c]
        else cfg_part = []
    | None => cfg_part = []
    end /\
    (if py_float_ne (length_scale (self m)) float_one
     then ls_part = ["--length_scale"; str_of_float (length_scale (self m))]
     else ls_part = []).
Proof.
  intros Hv Hm Ht Hex Henc.
  destruct (synthesize_calls_once text m v stem input Hv Hm Ht Hex Henc)
    as (o & m' & Hs & Hcalls).
  destruct (build_cmd_shape (self m) v (stem ++ ".wav")
              (<[stem ++ ".wav" := File [] false]> (fs m)))
    as (cfg_part & ls_part & Hcmd & Hcfg & Hls).
  exists o, m', cfg_part, ls_part. rewrite <- Hcmd. done.
Qed.

(** C9, as amended.  Once the temporary file is allocated, whatever
    happens next (a return or an exception), the call gives what the [try]
    statement gave, a failed removal changing nothing of it, and after the
    call the temporary file is gone unless its removal was refused or a
    directory stands at its path. *)
Theorem synthesize_removes_temp_file text m v stem o m' :
  voice (self m) = Some v ->
  str_truthy (model_file v) = true ->
  temp_stem (fs m) = inr stem ->
  path_exists (fs m) (stem ++ ".wav") = false ->
  synth text m = (o, m') ->
  (fs m' !! (stem ++ ".wav") = None \/
   (exists d, fs m' !! (stem ++ ".wav") = Some (File d true)) \/
   fs m' !! (stem ++ ".wav") = Some Dir) /\
  o = fst (synth_try v text (set_output_wav_path EmptyString m)).
Proof.
  intros Hv Hm Ht Hex Hs.
  destruct (synthesize_run text m v Hv Hm)
    as (o1 & m1 & o' & m2 & m3 & Hp & Ha & Htry & Hc & Hs').
  rewrite Hs in Hs'. injection Hs' as <- <-.
  rewrite Htry. cbn [fst]. split; [|done].
  destruct (synthesize_cleanup_run m2) as (m3 & Hc3 & _ & _ & _ & _ & Hgone).
  rewrite Hc in Hc3. injection Hc3 as <-.
  assert (Hpath : output_wav_path m2 = stem ++ ".wav").
  { assert (output_wav_path m2 = output_wav_path m1) as ->.
    { destruct o1 as [b|e]; cbn [after_body] in Ha; [by injection Ha as _ <-|].
      by apply handle_cases in Ha as [(_ & _ & ->)|(_ & _ & ->)]. }
    destruct Hp as [e Ht'|stem' Ht' Hex'|stem' o1 m1 Ht' Hex' Hr];
      cbn [fs set_output_wav_path] in *; try congruence.
    assert (stem' = stem) as -> by congruence.
    by destruct (run_path_frame _ _ _ _ _ _ Hr) as (-> & _). }
  rewrite Hpath in Hgone. specialize (Hgone (temp_name_truthy stem)).
  destruct (fs m' !! (stem ++ ".wav")) as [[d [|]|]|]; eauto.
  by destruct (Hgone d).
Qed.

End EngineProperties.

(** C1.  [get_stream_info] returns 16-bit signed samples, one channel and
    24000 Hz for every engine, whatever its voice and that voice's native
    sample rate. *)
Theorem get_stream_info_fixed (e : PiperEngine) :
  get_stream_info e = (paInt16, 1, 24000).
Proof. destruct e as [p [v|] l q]; reflexivity. Qed.

(** C10.  With no explicit path and PIPER_PATH set to the empty string,
    the engine takes the platform default and never the empty string. *)
Theorem PiperEngine_init_empty_env_path (environ : gmap string string)
    (os_name : string) (v : option PiperVoice) (ls : py_float) :
  environ !! "PIPER_PATH" = Some EmptyString ->
  piper_path (PiperEngine_init environ os_name None v ls)
    = (if String.eqb os_name "nt" then "piper.exe" else "piper") /\
  piper_path (PiperEngine_init environ os_name None v ls) <> EmptyString.
Proof.
  intros Henv. unfold PiperEngine_init. cbn [piper_path]. rewrite Henv.
  cbn [str_truthy]. by destruct (String.eqb os_name "nt").
Qed.

Lemma PiperEngine_init_empty_env_path_witness :
  piper_path (PiperEngine_init {["PIPER_PATH" := EmptyString]} "nt" None None float_one)
    = "piper.exe" /\
  piper_path (PiperEngine_init {["PIPER_PATH" := EmptyString]} "nt" None None float_one)
    <> EmptyString.
Proof.
  apply (PiperEngine_init_empty_env_path
           {["PIPER_PATH" := EmptyString]} "nt" None float_one).
  vm_compute; reflexivity.
Defined.

(** ** The engine on the example world *)

Example synthesize_demo_ok :
  exists m',
    Demo.synth (Demo.piper_writes false) Demo.hi Demo.ready = (Ret true, m') /\
    queue (self m') = [Demo.frames] /\
    fs m' !! Demo.temp_path = None /\
    proc_calls m' =
      [(["piper"; "-m"; "en.onnx"; "-f"; Demo.temp_path; "-c"; "en.onnx.json"],
        [x68; x69])].
Proof. eexists. split; [vm_compute; reflexivity|]. by vm_compute. Qed.

Example synthesize_demo_scale_0_8 :
  proc_calls (snd (Demo.synth (Demo.piper_writes false) Demo.hi Demo.ready_0_8)) =
    [(["piper"; "-m"; "en.onnx"; "-f"; Demo.temp_path; "-c"; "en.onnx.json";
       "--length_scale"; "0.8"], [x68; x69])].
Proof. by vm_compute. Qed.

Example synthesize_demo_exit_1 :
  exists m',
    Demo.synth Demo.piper_fails Demo.hi Demo.ready = (Ret false, m') /\
    queue (self m') = [] /\
    fs m' !! Demo.temp_path = None /\
    stdout m' = [LogRunError 1 (list_byte_of_string "no model")].
Proof. eexists. split; [vm_compute; reflexivity|]. by vm_compute. Qed.

Example synthesize_demo_missing_executable :
  exists m',
    Demo.synth Demo.piper_missing Demo.hi Demo.ready = (Ret false, m') /\
    stdout m' = [LogExeNotFound "piper"].
Proof. eexists. split; [vm_compute; reflexivity|]. by vm_compute. Qed.

Example synthesize_demo_lone_surrogate :
  exists m',
    Demo.synth (Demo.piper_writes false) Demo.lone_surrogate Demo.ready
      = (Ret false, m') /\
    stdout m' = [LogUnexpected UnicodeEncodeError] /\
    proc_calls m' = [].
Proof. eexists. split; [vm_compute; reflexivity|]. by vm_compute. Qed.

Example synthesize_demo_locked_file :
  exists m',
    Demo.synth (Demo.piper_writes true) Demo.hi Demo.ready = (Ret true, m') /\
    fs m' !! Demo.temp_path = Some (File Demo.wav true).
Proof. eexists. split; [vm_compute; reflexivity|]. by vm_compute. Qed.

(** C3 fails on the code.  The executable path came from PIPER_PATH with
    a byte that is not UTF-8 and names no executable: [subprocess.run]
    raises [FileNotFoundError], the first [except] clause prints the path,
    [print] raises [UnicodeEncodeError], and that exception leaves
    [synthesize] (after the [finally] clause removed the temporary file)
    instead of a returned false. *)
Theorem synthesize_print_escapes :
  exists m',
    Demo.synth Demo.piper_missing Demo.hi Demo.ready_latin1
      = (Raise UnicodeEncodeError, m') /\
    piper_path (self Demo.ready_latin1) = Demo.latin1_path /\
    Demo.writable Demo.latin1_path = false /\
    stdout m' = [] /\
    fs m' !! Demo.temp_path = None.
Proof. eexists. split; [vm_compute; reflexivity|]. by vm_compute. Qed.

(** C9 as stated fails: the executable leaves at the temporary path a
    file whose removal the operating system refuses; [os.remove] raises,
    the inner [except] clause swallows it, and the file is still there
    after the call. *)
Lemma temp_file_survives_counterexample :
  ~ (forall str_of_float wave_readframes temp_stem run_process writable
            text m v stem o m',
       voice (self m) = Some v ->
       str_truthy (model_file v) = true ->
       temp_stem (fs m) = inr stem ->
       path_exists (fs m) (stem ++ ".wav") = false ->
       synthesize str_of_float wave_readframes temp_stem run_process writable
         text m = (o, m') ->
       fs m' !! (stem ++ ".wav") = None).
Proof.
  intros Hclaim.
  specialize (Hclaim Demo.str_of_float Demo.wave_readframes Demo.temp_stem
                (Demo.piper_writes true) Demo.writable Demo.hi Demo.ready
                Demo.the_voice "/tmp/tmpk3v9x2ab" (Ret true)
                (snd (Demo.synth (Demo.piper_writes true) Demo.hi Demo.ready))).
  assert (H : fs (snd (Demo.synth (Demo.piper_writes true) Demo.hi Demo.ready))
                !! ("/tmp/tmpk3v9x2ab" ++ ".wav") = Some (File Demo.wav true))
    by (vm_compute; reflexivity).
  rewrite Hclaim in H; [discriminate H|..]; vm_compute; reflexivity.
Qed.

(** ** The theorems at concrete inputs *)

Lemma synthesize_success_witness :
  exists m',
    Demo.synth (Demo.piper_writes false) Demo.hi Demo.ready = (Ret true, m') /\
    queue (self m') = (queue (self Demo.ready) ++ [Demo.frames])%list.
Proof.
  apply (synthesize_success Demo.str_of_float Demo.wave_readframes Demo.temp_stem
           (Demo.piper_writes false) Demo.writable Demo.hi Demo.ready Demo.the_voice
           "/tmp/tmpk3v9x2ab" [x68; x69] [] []
           (<[Demo.temp_path := File Demo.wav false]>
              (<[Demo.temp_path := File [] false]> Demo.the_fs))
           Demo.wav false Demo.frames);
    vm_compute; reflexivity.
Defined.

Lemma synthesize_false_queue_unchanged_witness :
  queue (self (snd (Demo.synth Demo.piper_fails Demo.hi Demo.ready)))
    = queue (self Demo.ready).
Proof.
  apply (synthesize_false_queue_unchanged Demo.str_of_float Demo.wave_readframes
           Demo.temp_stem Demo.piper_fails Demo.writable Demo.hi Demo.ready).
  vm_compute; reflexivity.
Defined.

Lemma synthesize_voice_not_set_witness :
  exists m',
    Demo.synth (Demo.piper_writes false) Demo.hi Demo.voiceless = (Ret false, m') /\
    stdout m' = (stdout Demo.voiceless ++ [LogVoiceNotSet])%list /\
    queue (self m') = queue (self Demo.voiceless) /\
    proc_calls m' = proc_calls Demo.voiceless /\
    fs m' = fs Demo.voiceless.
Proof.
  apply (synthesize_voice_not_set Demo.str_of_float Demo.wave_readframes
           Demo.temp_stem (Demo.piper_writes false) Demo.writable Demo.hi
           Demo.voiceless).
  left. reflexivity.
Defined.

Lemma synthesize_argument_list_witness :
  exists o m' cfg_part ls_part,
    Demo.synth (Demo.piper_writes false) Demo.hi Demo.ready_0_8 = (o, m') /\
    proc_calls m' =
      (proc_calls Demo.ready_0_8 ++
       [(([piper_path (self Demo.ready_0_8); "-m"; model_file Demo.the_voice; "-f";
           ("/tmp/tmpk3v9x2ab" ++ ".wav")%string] ++ cfg_part ++ ls_part)%list,
         [x68; x69])])%list /\
    match config_file Demo.the_voice with
    | Some c =>
        if str_truthy c &&
           path_exists (<["/tmp/tmpk3v9x2ab" ++ ".wav" := File [] false]>
                          (fs Demo.ready_0_8)) c
        then cfg_part = ["-c"; c]
        else cfg_part = []
    | None => cfg_part = []
    end /\
    (if py_float_ne (length_scale (self Demo.ready_0_8)) float_one
     then ls_part =
            ["--length_scale"; Demo.str_of_float (length_scale (self Demo.ready_0_8))]
     else ls_part = []).
Proof.
  apply (synthesize_argument_list Demo.str_of_float Demo.wave_readframes
           Demo.temp_stem (Demo.piper_writes false) Demo.writable Demo.hi
           Demo.ready_0_8 Demo.the_voice "/tmp/tmpk3v9x2ab" [x68; x69]);
    vm_compute; reflexivity.
Defined.

Lemma synthesize_removes_temp_file_witness :
  (fs (snd (Demo.synth (Demo.piper_writes false) Demo.hi Demo.ready))
     !! ("/tmp/tmpk3v9x2ab" ++ ".wav") = None \/
   (exists d,
      fs (snd (Demo.synth (Demo.piper_writes false) Demo.hi Demo.ready))
        !! ("/tmp/tmpk3v9x2ab" ++ ".wav") = Some (File d true)) \/
   fs (snd (Demo.synth (Demo.piper_writes false) Demo.hi Demo.ready))
     !! ("/tmp/tmpk3v9x2ab" ++ ".wav") = Some Dir) /\
  Ret true =
    fst (synthesize_try Demo.str_of_float Demo.wave_readframes Demo.temp_stem
           (Demo.piper_writes false) Demo.writable Demo.the_voice Demo.hi
           (set_output_wav_path EmptyString Demo.ready)).
Proof.
  apply (synthesize_removes_temp_file Demo.str_of_float Demo.wave_readframes
           Demo.temp_stem (Demo.piper_writes false) Demo.writable Demo.hi Demo.ready
           Demo.the_voice "/tmp/tmpk3v9x2ab" (Ret true)
           (snd (Demo.synth (Demo.piper_writes false) Demo.hi Demo.ready)));
    vm_compute; reflexivity.
Defined.
(** ** More properties of PiperEngine *)

Section EngineExtras.

Variable str_of_float : py_float -> string.
Variable wave_readframes : list byte -> wav_result.
Variable temp_stem : filesystem -> exn + string.
Variable run_process : list string -> list byte -> filesystem -> proc_result.
Variable writable : string -> bool.
Variable json_load : list byte -> option json.
Variable int_of_str : string -> option Z.

#[local] Abbreviation synth :=
  (synthesize str_of_float wave_readframes temp_stem run_process writable).
#[local] Abbreviation synth_try :=
  (synthesize_try str_of_float wave_readframes temp_stem run_process writable).
#[local] Abbreviation paths :=
  (body_path str_of_float wave_readframes temp_stem run_process).
#[local] Abbreviation runs :=
  (run_path str_of_float wave_readframes run_process).
#[local] Abbreviation cmd_of := (build_cmd str_of_float).
#[local] Abbreviation run_of :=
  (synthesize_run str_of_float wave_readframes temp_stem run_process writable).
#[local] Abbreviation unusable :=
  (synthesize_unusable str_of_float wave_readframes temp_stem run_process writable).

#[local] Ltac monad :=
  cbv beta iota delta [bind gets modify lift ret raise try_except try_finally
                       queue_put].

(** The file system the [finally] clause leaves. *)
Lemma synthesize_cleanup_fs m :
  exists m',
    synthesize_cleanup m = (Ret tt, m') /\
    self m' = self m /\ stdout m' = stdout m /\ proc_calls m' = proc_calls m /\
    fs m' =
      if str_truthy (output_wav_path m)
      then match fs m !! output_wav_path m with
           | Some (File _ false) => delete (output_wav_path m) (fs m)
           | _ => fs m
           end
      else fs m.
Proof.
  unfold synthesize_cleanup, os_remove, isfile. monad.
  destruct m as [s f so pc p]. cbn [output_wav_path fs self stdout proc_calls].
  destruct (str_truthy p) eqn:Hp; cbn [andb].
  2:{ eexists; split; [reflexivity|]. done. }
  destruct (f !! p) as [[d [|]|]|] eqn:Hf; cbv beta iota;
    cbn [output_wav_path fs self stdout proc_calls]; rewrite ?Hf; cbv beta iota;
    (eexists; split; [reflexivity|]); done.
Qed.

(** An [except] clause touches nothing but the standard output, and never
    gives true. *)
Lemma after_body_frame o1 m1 o m2 :
  o1 <> Ret false ->
  after_body writable (o1, m1) = (o, m2) ->
  self m2 = self m1 /\ fs m2 = fs m1 /\ proc_calls m2 = proc_calls m1 /\
  output_wav_path m2 = output_wav_path m1 /\
  (o = Ret true -> o1 = Ret true /\ m2 = m1) /\
  (o = Ret false ->
   exists e, o1 = Raise e /\
     line_writable writable (handler_line e m1) = true /\
     stdout m2 = (stdout m1 ++ [handler_line e m1])%list) /\
  (forall x, o = Raise x ->
   exists e, o1 = Raise e /\ x = UnicodeEncodeError /\ m2 = m1 /\
     line_writable writable (handler_line e m1) = false).
Proof.
  intros Hnf. destruct o1 as [b|e]; cbn [after_body].
  - intros [= <- <-]. do 4 (split; [done|]). split; [done|]. split; [|done].
    intros [= ->]. done.
  - intros Ha.
    apply (handle_cases writable) in Ha as [(Hw & -> & ->)|(Hw & -> & ->)];
      do 4 (split; [done|]); (split; [done|]); split; try done.
    + intros _. by exists e.
    + intros x [= <-]. by exists e.
Qed.

(** The body of the [try] statement returns true or raises. *)
Lemma body_path_outcome v text m o m' :
  paths v text m o m' -> o <> Ret false.
Proof.
  intros Hp. destruct Hp as [e Ht|stem Ht Hex|stem o m' Ht Hex Hr]; [done..|].
  by destruct Hr.
Qed.

(** What the body of the [try] statement does to the machine. *)
Lemma body_path_effects v text m o m' :
  paths v text m o m' ->
  stdout m' = stdout m /\
  piper_path (self m') = piper_path (self m) /\
  voice (self m') = voice (self m) /\
  length_scale (self m') = length_scale (self m) /\
  ((exists e, o = Raise e) /\ queue (self m') = queue (self m) \/
   o = Ret true /\
   exists frames call,
     queue (self m') = (queue (self m) ++ [frames])%list /\
     proc_calls m' = (proc_calls m ++ [call])%list).
Proof.
  intros Hp. destruct Hp as [e Ht|stem Ht Hex|stem o m' Ht Hex Hr];
    [do 4 (split; [done|]); left; eauto..|].
  destruct Hr; do 4 (split; [done|]);
    first [left; split; [eauto|done] | right; split; [done|by repeat eexists]].
Qed.

(** What one call does to the engine, the queue, the standard output and
    the list of processes. *)
Lemma synthesize_effects text m o m' :
  synth text m = (o, m') ->
  piper_path (self m') = piper_path (self m) /\
  voice (self m') = voice (self m) /\
  length_scale (self m') = length_scale (self m) /\
  (o = Ret true ->
   exists frames call,
     queue (self m') = (queue (self m) ++ [frames])%list /\
     stdout m' = stdout m /\
     proc_calls m' = (proc_calls m ++ [call])%list) /\
  (o = Ret false -> exists line, stdout m' = (stdout m ++ [line])%list) /\
  (o <> Ret true -> queue (self m') = queue (self m)).
Proof.
  intros Hs.
  destruct (voice_usable_dec (self m)) as [(v & Hv & Hm)|Hno].
  2:{ rewrite (unusable text m Hno) in Hs. injection Hs as <- <-.
      do 3 (split; [done|]). split; [done|]. split; [|done].
      intros _. by eexists. }
  destruct (run_of text m v Hv Hm)
    as (o1 & m1 & o' & m2 & m3 & Hp & Ha & _ & Hc & Hs').
  rewrite Hs in Hs'. injection Hs' as <- <-.
  destruct (synthesize_cleanup_fs m2) as (m3 & Hc3 & Hself & Hout & Hcalls & _).
  rewrite Hc in Hc3. injection Hc3 as <-.
  destruct (after_body_frame _ _ _ _ (body_path_outcome _ _ _ _ _ Hp) Ha)
    as (Hs2 & _ & Hc2 & _ & Htrue & Hfalse & Hraise).
  destruct (body_path_effects _ _ _ _ _ Hp) as (Hout1 & Hpp & Hvv & Hll & Hq).
  cbn [self stdout proc_calls set_output_wav_path] in *.
  rewrite Hself, Hout, Hcalls, Hs2, Hc2, Hpp, Hvv, Hll.
  do 3 (split; [done|]). split; [|split].
  - intros ->. destruct (Htrue eq_refl) as [-> ->].
    destruct Hq as [[[e ?] _]|[_ (frames & call & Hqq & Hcc)]]; [done|].
    exists frames, call. by rewrite Hqq, Hcc, Hout1.
  - intros ->. destruct (Hfalse eq_refl) as (e & -> & _ & Hline).
    eexists. by rewrite Hline, Hout1.
  - intros Hnt. destruct Hq as [[_ ?]|[-> _]]; [done|].
    cbn [after_body] in Ha. by injection Ha as <- _.
Qed.

(** X1.  A call that returns true appended exactly one buffer to the
    queue, printed nothing and started exactly one process. *)
Theorem synthesize_true_effects text m m' :
  synth text m = (Ret true, m') ->
  exists frames call,
    queue (self m') = (queue (self m) ++ [frames])%list /\
    stdout m' = stdout m /\
    proc_calls m' = (proc_calls m ++ [call])%list.
Proof.
  intros Hs. destruct (synthesize_effects _ _ _ _ Hs) as (_ & _ & _ & Ht & _).
  by apply Ht.
Qed.

(** X2.  A call that returns false printed exactly one line. *)
Theorem synthesize_false_logs_once text m m' :
  synth text m = (Ret false, m') ->
  exists line, stdout m' = (stdout m ++ [line])%list.
Proof.
  intros Hs. destruct (synthesize_effects _ _ _ _ Hs) as (_ & _ & _ & _ & Hf & _).
  by apply Hf.
Qed.

(** X3.  No call changes the executable path, the voice or the length
    scale of the engine. *)
Theorem synthesize_keeps_settings text m o m' :
  synth text m = (o, m') ->
  piper_path (self m') = piper_path (self m) /\
  voice (self m') = voice (self m) /\
  length_scale (self m') = length_scale (self m).
Proof.
  intros Hs. destruct (synthesize_effects _ _ _ _ Hs) as (Hp & Hv & Hl & _).
  done.
Qed.

(** X4.  Two calls that both return true queue their buffers in the order
    of the calls: the buffer the first call appended stands right before
    the buffer the second call appended, after everything queued
    before. *)
Theorem synthesize_twice_fifo text1 text2 m m1 m2 :
  synth text1 m = (Ret true, m1) ->
  synth text2 m1 = (Ret true, m2) ->
  exists frames1 frames2,
    queue (self m1) = (queue (self m) ++ [frames1])%list /\
    queue (self m2) = (queue (self m1) ++ [frames2])%list /\
    queue (self m2) = (queue (self m) ++ [frames1; frames2])%list.
Proof.
  intros H1 H2.
  destruct (synthesize_effects _ _ _ _ H1) as (_ & _ & _ & Ht1 & _).
  destruct (synthesize_effects _ _ _ _ H2) as (_ & _ & _ & Ht2 & _).
  destruct (Ht1 eq_refl) as (f1 & c1 & Hq1 & _).
  destruct (Ht2 eq_refl) as (f2 & c2 & Hq2 & _).
  exists f1, f2. split; [done|]. split; [done|].
  rewrite Hq2, Hq1, <- app_assoc. reflexivity.
Qed.

(** A path that does not exist has no entry in the file system. *)
Lemma path_exists_false (f : filesystem) p :
  path_exists f p = false -> f !! p = None.
Proof. unfold path_exists. by destruct (f !! p). Qed.

(** No list is itself with one more element. *)
Lemma app_singleton_neq {A} (l : list A) x : (l ++ [x])%list <> l.
Proof.
  intros H. apply (f_equal length) in H. rewrite length_app in H.
  cbn [length] in H. lia.
Qed.

(** A call with a usable voice, with the machine between its steps. *)
Lemma synthesize_steps text m v :
  voice (self m) = Some v ->
  str_truthy (model_file v) = true ->
  exists o1 m1 o m2 m',
    paths v text (set_output_wav_path EmptyString m) o1 m1 /\
    after_body writable (o1, m1) = (o, m2) /\
    self m2 = self m1 /\ fs m2 = fs m1 /\ proc_calls m2 = proc_calls m1 /\
    output_wav_path m2 = output_wav_path m1 /\
    synthesize_cleanup m2 = (Ret tt, m') /\
    self m' = self m2 /\ stdout m' = stdout m2 /\ proc_calls m' = proc_calls m2 /\
    fs m' =
      (if str_truthy (output_wav_path m2)
       then match fs m2 !! output_wav_path m2 with
            | Some (File _ false) => delete (output_wav_path m2) (fs m2)
            | _ => fs m2
            end
       else fs m2) /\
    synth text m = (o, m').
Proof.
  intros Hv Hm.
  destruct (run_of text m v Hv Hm)
    as (o1 & m1 & o & m2 & m' & Hp & Ha & _ & Hc & Hs).
  destruct (synthesize_cleanup_fs m2) as (m3 & Hc3 & Hself & Hout & Hcalls & Hfs).
  rewrite Hc in Hc3. injection Hc3 as <-.
  destruct (after_body_frame _ _ _ _ (body_path_outcome _ _ _ _ _ Hp) Ha)
    as (Hs2 & Hf2 & Hc2 & Hp2 & _).
  exists o1, m1, o, m2, m'. done.
Qed.

(** X5.  A call that starts no process leaves the file system exactly as
    it was: the temporary file it may have created is removed again. *)
Theorem synthesize_no_process_fs_unchanged text m o m' :
  synth text m = (o, m') ->
  proc_calls m' = proc_calls m ->
  fs m' = fs m.
Proof.
  intros Hs Hcalls.
  destruct (voice_usable_dec (self m)) as [(v & Hv & Hm)|Hno].
  2:{ rewrite (unusable text m Hno) in Hs. by injection Hs as <- <-. }
  destruct (synthesize_steps text m v Hv Hm)
    as (o1 & m1 & o' & m2 & m3 & Hp & _ & _ & Hf2 & Hc2 & Hp2 & _ & _ & _ & Hc3
        & Hfs & Hs').
  rewrite Hs in Hs'. injection Hs' as <- <-.
  rewrite Hfs, Hp2, Hf2. rewrite Hc3, Hc2 in Hcalls. clear Hfs Hc3 Hc2 Hp2 Hf2.
  destruct Hp as [e Ht|stem Ht Hex|stem o1 m1 Ht Hex Hr]; [done..|].
  cbn [fs set_output_wav_path] in Hex. apply path_exists_false in Hex.
  destruct Hr; cbn [proc_calls add_call set_fs enqueue after_temp
                    set_output_wav_path] in Hcalls;
    try (by apply app_singleton_neq in Hcalls).
  cbn [output_wav_path fs after_temp set_output_wav_path set_fs].
  rewrite temp_name_truthy, lookup_insert_eq.
  by apply delete_insert_id.
Qed.

(** X6.  A call changes no file other than its temporary file, beyond what
    the executable itself changes: a path that is not the temporary path
    and that the executable never touches names after the call what it
    named before. *)
Theorem synthesize_other_files_untouched text m o m' q :
  synth text m = (o, m') ->
  (forall stem, temp_stem (fs m) = inr stem -> q <> stem ++ ".wav") ->
  (forall cmd_list input f returncode out err f',
     run_process cmd_list input f = Exited returncode out err f' ->
     f' !! q = f !! q) ->
  fs m' !! q = fs m !! q.
Proof.
  intros Hs Hq Hproc.
  destruct (voice_usable_dec (self m)) as [(v & Hv & Hm)|Hno].
  2:{ rewrite (unusable text m Hno) in Hs. by injection Hs as <- <-. }
  destruct (synthesize_steps text m v Hv Hm)
    as (o1 & m1 & o' & m2 & m3 & Hp & _ & _ & Hf2 & _ & Hp2 & _ & _ & _ & _
        & Hfs & Hs').
  rewrite Hs in Hs'. injection Hs' as <- <-.
  rewrite Hfs, Hp2, Hf2. clear Hfs Hp2 Hf2.
  assert (Hkeep : forall p (f : filesystem),
    p <> q ->
    (if str_truthy p
     then match f !! p with
          | Some (File _ false) => delete p f
          | _ => f
          end
     else f) !! q = f !! q).
  { intros p f Hne. destruct (str_truthy p); [|done].
    destruct (f !! p) as [[d [|]|]|]; try done. by apply lookup_delete_ne. }
  destruct Hp as [e Ht|stem Ht Hex|stem o1 m1 Ht Hex Hr]; [done..|].
  cbn [fs set_output_wav_path] in Ht. specialize (Hq stem Ht).
  destruct (run_path_frame _ _ _ _ _ _ _ _ _ Hr) as (Hpath & _).
  cbn [output_wav_path after_temp set_output_wav_path] in Hpath.
  rewrite Hpath, Hkeep by done.
  assert (Hins : (<[stem ++ ".wav" := File [] false]> (fs m)) !! q = fs m !! q)
    by (by apply lookup_insert_ne).
  destruct Hr; cbn [fs add_call set_fs enqueue after_temp set_output_wav_path] in *;
    try done; by erewrite Hproc by eassumption.
Qed.

(** With a usable voice and a fresh temporary name, a call follows one of
    the paths from line 71 on, then the matching [except] clause, then the
    [finally] clause. *)
Lemma synthesize_started text m v stem :
  voice (self m) = Some v ->
  str_truthy (model_file v) = true ->
  temp_stem (fs m) = inr stem ->
  path_exists (fs m) (stem ++ ".wav") = false ->
  exists o1 m1 o m2 m',
    runs v text (stem ++ ".wav")
      (after_temp (stem ++ ".wav") (set_output_wav_path EmptyString m)) o1 m1 /\
    after_body writable (o1, m1) = (o, m2) /\
    synthesize_cleanup m2 = (Ret tt, m') /\
    self m' = self m2 /\ stdout m' = stdout m2 /\ proc_calls m' = proc_calls m2 /\
    fs m' =
      (match fs m2 !! (stem ++ ".wav") with
       | Some (File _ false) => delete (stem ++ ".wav") (fs m2)
       | _ => fs m2
       end) /\
    synth text m = (o, m').
Proof.
  intros Hv Hm Ht Hex.
  destruct (synthesize_steps text m v Hv Hm)
    as (o1 & m1 & o & m2 & m' & Hp & Ha & _ & _ & _ & Hp2 & Hc & Hs3 & Ho3 & Hc3
        & Hfs & Hs).
  exists o1, m1, o, m2, m'.
  destruct Hp as [e Ht'|stem' Ht' Hex'|stem' o1 m1 Ht' Hex' Hr];
    cbn [fs set_output_wav_path] in *; try congruence.
  assert (stem' = stem) as -> by congruence.
  destruct (run_path_frame _ _ _ _ _ _ _ _ _ Hr) as (Hpath & _).
  cbn [output_wav_path after_temp set_output_wav_path] in Hpath.
  rewrite Hp2, Hpath, temp_name_truthy in Hfs. done.
Qed.

#[local] Ltac settle Ha :=
  cbn [after_body] in Ha; unfold handle in Ha;
  cbn [handler_line line_writable self fs proc_calls stdout output_wav_path
       add_call set_fs after_temp set_output_wav_path] in Ha.


(** X8.  When the executable cannot be found and its path can be written
    to the standard output, the call returns false, prints the line that
    names [piper_path], and leaves the file system as it was. *)
Theorem synthesize_executable_missing text m v stem input :
  voice (self m) = Some v ->
  str_truthy (model_file v) = true ->
  temp_stem (fs m) = inr stem ->
  path_exists (fs m) (stem ++ ".wav") = false ->
  encode_utf8 text = inr input ->
  run_process
    (cmd_of (self m) v (stem ++ ".wav") (<[stem ++ ".wav" := File [] false]> (fs m)))
    input (<[stem ++ ".wav" := File [] false]> (fs m))
    = SpawnFailed FileNotFoundError ->
  writable (piper_path (self m)) = true ->
  exists m',
    synth text m = (Ret false, m') /\
    stdout m' = (stdout m ++ [LogExeNotFound (piper_path (self m))])%list /\
    fs m' = fs m.
Proof.
  intros Hv Hm Ht Hex Henc Hrun Hwr.
  destruct (synthesize_started text m v stem Hv Hm Ht Hex)
    as (o1 & m1 & o & m2 & m' & Hr & Ha & _ & Hself & Hout & _ & Hfs & Hs).
  destruct Hr as [e He|input' e He Hp|input' code out' err' fs2 He Hp Hc
                 |input' out' err' fs2 e He Hp Hrd
                 |input' out' err' fs2 data' e He Hp Hrd Hw
                 |input' out' err' fs2 data' frames' He Hp Hrd Hw];
    cbn [fs self after_temp set_output_wav_path set_fs] in *; try congruence.
  assert (e = FileNotFoundError) as -> by congruence.
  settle Ha. rewrite Hwr in Ha. injection Ha as <- <-.
  exists m'. rewrite Hout, Hfs. split; [done|]. split; [done|].
  cbn [fs add_log add_call after_temp set_output_wav_path set_fs].
  rewrite lookup_insert_eq.
  by apply delete_insert_id, path_exists_false.
Qed.

(** X9.  When the executable exits with 0 and no file is left at the
    temporary path, [wave.open] raises [FileNotFoundError] and the first
    [except] clause takes it: if the executable path can be written to the
    standard output, the call returns false with the line of the missing
    executable. *)
Theorem synthesize_output_missing text m v stem input out err fs' :
  voice (self m) = Some v ->
  str_truthy (model_file v) = true ->
  temp_stem (fs m) = inr stem ->
  path_exists (fs m) (stem ++ ".wav") = false ->
  encode_utf8 text = inr input ->
  run_process
    (cmd_of (self m) v (stem ++ ".wav") (<[stem ++ ".wav" := File [] false]> (fs m)))
    input (<[stem ++ ".wav" := File [] false]> (fs m))
    = Exited 0 out err fs' ->
  fs' !! (stem ++ ".wav") = None ->
  writable (piper_path (self m)) = true ->
  exists m',
    synth text m = (Ret false, m') /\
    stdout m' = (stdout m ++ [LogExeNotFound (piper_path (self m))])%list /\
    queue (self m') = queue (self m).
Proof.
  intros Hv Hm Ht Hex Henc Hrun Hnone Hwr.
  destruct (synthesize_started text m v stem Hv Hm Ht Hex)
    as (o1 & m1 & o & m2 & m' & Hr & Ha & _ & Hself & Hout & _ & _ & Hs).
  assert (Hread : read_file fs' (stem ++ ".wav") = inl FileNotFoundError)
    by (unfold read_file; by rewrite Hnone).
  destruct Hr as [e He|input' e He Hp|input' code out' err' fs2 He Hp Hc
                 |input' out' err' fs2 e He Hp Hrd
                 |input' out' err' fs2 data' e He Hp Hrd Hw
                 |input' out' err' fs2 data' frames' He Hp Hrd Hw];
    cbn [fs self after_temp set_output_wav_path set_fs] in *; try congruence.
  assert (fs2 = fs') as -> by congruence.
  assert (e = FileNotFoundError) as -> by congruence.
  settle Ha. rewrite Hwr in Ha. injection Ha as <- <-.
  exists m'. rewrite Hself, Hout. done.
Qed.

(** X10.  When the executable exits with 0 and the [wave] module rejects
    the file it left, and the temporary path can be written to the
    standard output, the call returns false and prints the line that names
    the temporary path; when the file ends too early the error is
    [EOFError], which only the last [except] clause catches. *)
Theorem synthesize_bad_wav text m v stem input out err fs' data lk :
  voice (self m) = Some v ->
  str_truthy (model_file v) = true ->
  temp_stem (fs m) = inr stem ->
  path_exists (fs m) (stem ++ ".wav") = false ->
  encode_utf8 text = inr input ->
  run_process
    (cmd_of (self m) v (stem ++ ".wav") (<[stem ++ ".wav" := File [] false]> (fs m)))
    input (<[stem ++ ".wav" := File [] false]> (fs m))
    = Exited 0 out err fs' ->
  fs' !! (stem ++ ".wav") = Some (File data lk) ->
  (forall frames, wave_readframes data <> WavFrames frames) ->
  writable (stem ++ ".wav") = true ->
  exists m',
    synth text m = (Ret false, m') /\
    stdout m' =
      (stdout m ++
       [match wave_readframes data with
        | WavMalformed => LogWavError (stem ++ ".wav") WaveError
        | _ => LogUnexpected EOFError
        end])%list /\
    queue (self m') = queue (self m).
Proof.
  intros Hv Hm Ht Hex Henc Hrun Hfile Hbad Hwr.
  destruct (synthesize_started text m v stem Hv Hm Ht Hex)
    as (o1 & m1 & o & m2 & m' & Hr & Ha & _ & Hself & Hout & _ & _ & Hs).
  assert (Hread : read_file fs' (stem ++ ".wav") = inr data)
    by (unfold read_file; by rewrite Hfile).
  destruct Hr as [e He|input' e He Hp|input' code out' err' fs2 He Hp Hc
                 |input' out' err' fs2 e He Hp Hrd
                 |input' out' err' fs2 data' e He Hp Hrd Hw
                 |input' out' err' fs2 data' frames' He Hp Hrd Hw];
    cbn [fs self after_temp set_output_wav_path set_fs] in *; try congruence.
  assert (fs2 = fs') as -> by congruence.
  assert (data' = data) as -> by congruence.
  destruct Hw as [[Hw ->]|[Hw ->]]; settle Ha; rewrite ?Hwr in Ha;
    injection Ha as <- <-; exists m'; rewrite Hself, Hout, Hw; done.
Qed.

(** X11.  When [tempfile] finds no usable directory it raises
    [FileNotFoundError]: if the executable path can be written to the
    standard output, the call returns false with the line of the missing
    executable, starts no process and creates no file. *)
Theorem synthesize_no_temp_dir text m v :
  voice (self m) = Some v ->
  str_truthy (model_file v) = true ->
  temp_stem (fs m) = inl FileNotFoundError ->
  writable (piper_path (self m)) = true ->
  exists m',
    synth text m = (Ret false, m') /\
    stdout m' = (stdout m ++ [LogExeNotFound (piper_path (self m))])%list /\
    proc_calls m' = proc_calls m /\
    fs m' = fs m.
Proof.
  intros Hv Hm Ht Hwr.
  destruct (synthesize_steps text m v Hv Hm)
    as (o1 & m1 & o & m2 & m' & Hp & Ha & _ & _ & _ & _ & _ & _ & Hout & Hcalls
        & Hfs & Hs).
  destruct Hp as [e Ht'|stem' Ht' Hex'|stem' o1 m1 Ht' Hex' Hr];
    cbn [fs set_output_wav_path] in *; try congruence.
  assert (e = FileNotFoundError) as -> by congruence.
  settle Ha. rewrite Hwr in Ha. injection Ha as <- <-.
  exists m'. rewrite Hout, Hcalls, Hfs. done.
Qed.

(** A text with a code point that cannot be encoded is refused. *)
Lemma encode_utf8_unencodable text c :
  In c text -> unencodable c = true -> encode_utf8 text = inl UnicodeEncodeError.
Proof.
  intros Hin Hc. induction text as [|d rest IH]; [done|].
  cbn [encode_utf8]. destruct Hin as [->|Hin].
  - assert (encode_code_point c = None) as ->; [|done].
    unfold encode_code_point. unfold unencodable in Hc.
    apply orb_true_iff in Hc.
    rewrite andb_true_iff, !N.leb_le, N.ltb_lt in Hc.
    destruct (N.ltb_spec c 0x80); [lia|].
    destruct (N.ltb_spec c 0x800); [lia|].
    destruct (N.leb_spec 0xD800 c), (N.leb_spec c 0xDFFF); cbn [andb]; try done;
      destruct (N.ltb_spec c 0x10000); try lia;
      destruct (N.leb_spec c 0x10FFFF); try done; lia.
  - rewrite (IH Hin). by destruct (encode_code_point d).
Qed.

(** X12.  A text with a lone surrogate (or a number past the last code
    point) never makes a call succeed: no process is started and the queue
    is as it was; once the temporary file is allocated, the call returns
    false with the line of the unexpected [UnicodeEncodeError]. *)
Theorem synthesize_unencodable_text text m c :
  In c text ->
  unencodable c = true ->
  exists o m',
    synth text m = (o, m') /\
    o <> Ret true /\
    proc_calls m' = proc_calls m /\
    queue (self m') = queue (self m) /\
    (forall v stem,
       voice (self m) = Some v ->
       str_truthy (model_file v) = true ->
       temp_stem (fs m) = inr stem ->
       path_exists (fs m) (stem ++ ".wav") = false ->
       o = Ret false /\
       stdout m' = (stdout m ++ [LogUnexpected UnicodeEncodeError])%list).
Proof.
  intros Hin Hc. pose proof (encode_utf8_unencodable text c Hin Hc) as Henc.
  destruct (voice_usable_dec (self m)) as [(v & Hv & Hm)|Hno].
  2:{ rewrite (unusable text m Hno). do 2 eexists. split; [done|].
      do 3 (split; [done|]). intros v stem Hv Hm.
      destruct Hno as [?|(v' & ? & ?)]; congruence. }
  destruct (synthesize_steps text m v Hv Hm)
    as (o1 & m1 & o & m2 & m' & Hp & Ha & Hs2 & _ & Hc2 & _ & _ & Hs3 & Ho3 & Hc3
        & _ & Hs).
  exists o, m'. split; [done|]. rewrite Hs3, Hc3, Hs2, Hc2, Ho3.
  destruct Hp as [e Ht|stem Ht Hex|stem o1 m1 Ht Hex Hr];
    cbn [fs set_output_wav_path] in *.
  - apply (handle_cases writable) in Ha as [(_ & -> & ->)|(_ & -> & ->)];
      (split; [done|]); do 2 (split; [done|]); intros; congruence.
  - apply (handle_cases writable) in Ha as [(_ & -> & ->)|(_ & -> & ->)];
      (split; [done|]); do 2 (split; [done|]); intros; congruence.
  - destruct Hr as [e He|input' e He Hp|input' code out' err' fs2 He Hp Hcode
                   |input' out' err' fs2 e He Hp Hrd
                   |input' out' err' fs2 data' e He Hp Hrd Hw
                   |input' out' err' fs2 data' frames' He Hp Hrd Hw];
      try congruence.
    assert (e = UnicodeEncodeError) as -> by congruence.
    settle Ha. injection Ha as <- <-. by repeat split.
Qed.

(** X13.  [set_voice] checks nothing: after a voice with an empty model
    path is set, the next call returns false with the voice-not-set line,
    and what was queued before stays queued. *)
Theorem set_voice_unvalidated text m v :
  model_file v = EmptyString ->
  exists m',
    synth text (set_self (set_voice (self m) v) m) = (Ret false, m') /\
    stdout m' = (stdout m ++ [LogVoiceNotSet])%list /\
    queue (self m') = queue (self m) /\
    proc_calls m' = proc_calls m.
Proof.
  intros Hm. rewrite unusable; [by eexists|].
  right. exists v. by rewrite Hm.
Qed.

(** X14.  [set_voice] takes effect at the next call: a process started by
    that call gets the model path of the new voice after "-m", whatever
    the voice was before. *)
Theorem set_voice_takes_effect text m v o m' :
  synth text (set_self (set_voice (self m) v) m) = (o, m') ->
  voice (self m') = Some v /\
  (proc_calls m' = proc_calls m \/
   exists cmd_list input,
     proc_calls m' = (proc_calls m ++ [(cmd_list, input)])%list /\
     nth_error cmd_list 1 = Some "-m" /\
     nth_error cmd_list 2 = Some (model_file v)).
Proof.
  intros Hs. set (m0 := set_self (set_voice (self m) v) m) in *.
  destruct (synthesize_effects _ _ _ _ Hs) as (_ & Hv & _).
  split; [by rewrite Hv|]. clear Hv.
  destruct (voice_usable_dec (self m0)) as [(v' & Hv' & Hm)|Hno].
  2:{ rewrite (unusable text m0 Hno) in Hs. injection Hs as <- <-. by left. }
  injection Hv' as <-.
  destruct (synthesize_steps text m0 v eq_refl Hm)
    as (o1 & m1 & o' & m2 & m3 & Hp & _ & _ & _ & Hc2 & _ & _ & _ & _ & Hc3
        & _ & Hs').
  rewrite Hs in Hs'. injection Hs' as <- <-. rewrite Hc3, Hc2.
  destruct Hp as [e Ht|stem Ht Hex|stem o1 m1 Ht Hex Hr]; [by left..|].
  destruct (run_path_frame _ _ _ _ _ _ _ _ _ Hr)
    as (_ & _ & _ & _ & _ & _ & [[Hsame _]|(input & Henc & Hadd)]); [by left|right].
  destruct (build_cmd_shape str_of_float
              (self (after_temp (stem ++ ".wav") (set_output_wav_path EmptyString m0)))
              v (stem ++ ".wav")
              (fs (after_temp (stem ++ ".wav") (set_output_wav_path EmptyString m0))))
    as (cfg_part & ls_part & Hcmd & _).
  eexists _, input. split; [exact Hadd|]. rewrite Hcmd. done.
Qed.

(** The name of a sidecar file is not the empty string. *)
Lemma sidecar_name_truthy model : str_truthy (model ++ ".json") = true.
Proof. by destruct model. Qed.

(** X15.  A voice built with no config argument next to an existing
    sidecar file makes the next call pass "-c" and the sidecar path to the
    executable, right after the five fixed arguments. *)
Theorem sidecar_voice_passes_config text m model pv stem input :
  PiperVoice_init json_load int_of_str model None (fs m) = (Ret pv, fs m) ->
  isfile (fs m) (model ++ ".json") = true ->
  str_truthy model = true ->
  voice (self m) = Some pv ->
  temp_stem (fs m) = inr stem ->
  path_exists (fs m) (stem ++ ".wav") = false ->
  encode_utf8 text = inr input ->
  exists o m' ls_part,
    synth text m = (o, m') /\
    proc_calls m' =
      (proc_calls m ++
       [(([piper_path (self m); "-m"; model; "-f"; (stem ++ ".wav")%string;
           "-c"; (model ++ ".json")%string] ++ ls_part)%list, input)])%list.
Proof.
  intros Hinit Hside Hmodel Hv Ht Hex Henc.
  destruct (PiperVoice_init_run json_load int_of_str model None (fs m))
    as (rate & Hinit' & _).
  rewrite Hinit in Hinit'. injection Hinit' as ->.
  cbn [resolve_config] in *. rewrite Hside in *.
  destruct (synthesize_calls_once str_of_float wave_readframes temp_stem
              run_process writable text m _ stem input Hv Hmodel Ht Hex Henc)
    as (o & m' & Hs & Hcalls).
  assert (Hcmd : exists ls_part,
    cmd_of (self m) {| model_file := model; config_file := Some (model ++ ".json");
                       native_sample_rate := rate |}
      (stem ++ ".wav") (<[stem ++ ".wav" := File [] false]> (fs m)) =
    ([piper_path (self m); "-m"; model; "-f"; (stem ++ ".wav")%string;
      "-c"; (model ++ ".json")%string] ++ ls_part)%list).
  { unfold build_cmd. cbn [config_file model_file].
    rewrite sidecar_name_truthy. cbn [andb].
    assert (path_exists (<[stem ++ ".wav" := File [] false]> (fs m))
              (model ++ ".json") = true) as ->.
    { unfold path_exists, isfile in *.
      destruct (decide (stem ++ ".wav" = model ++ ".json")) as [->|Hne].
      - by rewrite lookup_insert_eq.
      - rewrite lookup_insert_ne by done. by destruct (fs m !! (model ++ ".json")). }
    destruct (py_float_ne _ _); eexists; [|by rewrite app_nil_r].
    by rewrite <- app_assoc. }
  destruct Hcmd as (ls_part & Hcmd).
  exists o, m', ls_part. split; [done|]. by rewrite Hcalls, Hcmd.
Qed.


(** X26.  When the executable cannot be found and its path cannot be
    written to the standard output, the [print] of the first [except]
    clause raises: [UnicodeEncodeError] leaves the call instead of a
    returned false; nothing is printed or queued, and the [finally] clause
    has removed the temporary file. *)
Theorem synthesize_unwritable_path_raises text m v stem input :
  voice (self m) = Some v ->
  str_truthy (model_file v) = true ->
  temp_stem (fs m) = inr stem ->
  path_exists (fs m) (stem ++ ".wav") = false ->
  encode_utf8 text = inr input ->
  run_process
    (cmd_of (self m) v (stem ++ ".wav") (<[stem ++ ".wav" := File [] false]> (fs m)))
    input (<[stem ++ ".wav" := File [] false]> (fs m))
    = SpawnFailed FileNotFoundError ->
  writable (piper_path (self m)) = false ->
  exists m',
    synth text m = (Raise UnicodeEncodeError, m') /\
    stdout m' = stdout m /\
    queue (self m') = queue (self m) /\
    fs m' = fs m.
Proof.
  intros Hv Hm Ht Hex Henc Hrun Hwr.
  destruct (synthesize_started text m v stem Hv Hm Ht Hex)
    as (o1 & m1 & o & m2 & m' & Hr & Ha & _ & Hself & Hout & _ & Hfs & Hs).
  destruct Hr as [e He|input' e He Hp|input' code out' err' fs2 He Hp Hc
                 |input' out' err' fs2 e He Hp Hrd
                 |input' out' err' fs2 data' e He Hp Hrd Hw
                 |input' out' err' fs2 data' frames' He Hp Hrd Hw];
    cbn [fs self after_temp set_output_wav_path set_fs] in *; try congruence.
  assert (e = FileNotFoundError) as -> by congruence.
  settle Ha. rewrite Hwr in Ha. injection Ha as <- <-.
  exists m'. rewrite Hself, Hout, Hfs. split; [done|]. do 2 (split; [done|]).
  cbn [fs add_call after_temp set_output_wav_path set_fs].
  rewrite lookup_insert_eq.
  by apply delete_insert_id, path_exists_false.
Qed.

End EngineExtras.

(** X16.  The executable path of a new engine is empty only when the
    caller passed the empty string itself. *)
Theorem PiperEngine_init_path_empty_iff (environ : gmap string string)
    (os_name : string) (explicit : option string) (v : option PiperVoice)
    (ls : py_float) :
  piper_path (PiperEngine_init environ os_name explicit v ls) = EmptyString
  <-> explicit = Some EmptyString.
Proof.
  unfold PiperEngine_init. cbn [piper_path].
  destruct explicit as [p|]; [split; congruence|].
  split; [|done].
  destruct (environ !! "PIPER_PATH") as [[|c p]|]; cbn [str_truthy];
    by destruct (String.eqb os_name "nt").
Qed.

(** X17.  With no explicit path, a non-empty PIPER_PATH is the executable
    path on every platform; an explicit path wins over PIPER_PATH. *)
Theorem PiperEngine_init_env_override (environ : gmap string string)
    (os_name p : string) (v : option PiperVoice) (ls : py_float) :
  environ !! "PIPER_PATH" = Some p ->
  str_truthy p = true ->
  piper_path (PiperEngine_init environ os_name None v ls) = p /\
  forall q, piper_path (PiperEngine_init environ os_name (Some q) v ls) = q.
Proof.
  intros Henv Hp. unfold PiperEngine_init. cbn [piper_path].
  by rewrite Henv, Hp.
Qed.

(** The byte of a code point below 256 is that number. *)
Lemma utf8_byte_to_N c : (c < 256)%N -> Byte.to_N (utf8_byte c) = c.
Proof.
  intros Hc. unfold utf8_byte.
  destruct (Byte.of_N c) as [b|] eqn:Hb.
  - by apply Byte.to_of_N.
  - apply Byte.of_N_None_iff in Hb. lia.
Qed.

(** X18.  ASCII text is handed over byte for byte: when every code point
    is below 128, the encoding succeeds and its bytes are the code
    points. *)
Theorem encode_utf8_ascii text :
  Forall (fun c => (c < 0x80)%N) text ->
  exists bs, encode_utf8 text = inr bs /\ map Byte.to_N bs = text.
Proof.
  induction 1 as [|c rest Hc _ (bs & Hbs & Hmap)]; [by exists []|].
  cbn [encode_utf8]. unfold encode_code_point.
  destruct (N.ltb_spec c 0x80); [|lia]. rewrite Hbs.
  eexists; split; [reflexivity|].
  cbn [app map]. rewrite Hmap, utf8_byte_to_N by lia. done.
Qed.

(** X19.  The encoding succeeds exactly when no code point is a surrogate
    or lies past U+10FFFF. *)
Theorem encode_utf8_succeeds_iff text :
  (exists bs, encode_utf8 text = inr bs) <->
  Forall (fun c => unencodable c = false) text.
Proof.
  split.
  - intros (bs & Hbs). apply Forall_forall. intros c Hin.
    destruct (unencodable c) eqn:Hc; [|done].
    rewrite (encode_utf8_unencodable text c) in Hbs by (done || by apply list_elem_of_In).
    done.
  - induction 1 as [|c rest Hc _ (bs & Hbs)]; [by exists []|].
    cbn [encode_utf8]. rewrite Hbs.
    assert (exists cs, encode_code_point c = Some cs) as (cs & ->); [|by eexists].
    unfold encode_code_point. unfold unencodable in Hc.
    apply orb_false_iff in Hc. destruct Hc as [Hs Hr]. rewrite Hs.
    apply N.ltb_ge in Hr.
    destruct (c <? 0x80)%N; [by eexists|].
    destruct (c <? 0x800)%N; [by eexists|].
    destruct (c <? 0x10000)%N; [by eexists|].
    destruct (N.leb_spec c 0x10FFFF); [by eexists|lia].
Qed.

(** ** More properties of PiperVoice *)

Section VoiceExtras.

Variable json_load : list byte -> option json.
Variable int_of_str : string -> option Z.

#[local] Abbreviation read_rate := (read_sample_rate json_load int_of_str).
#[local] Abbreviation init := (PiperVoice_init json_load int_of_str).
#[local] Abbreviation to_int := (py_int int_of_str).

#[local] Ltac step :=
  cbv beta iota delta [read_sample_rate bind lift ret raise gets py_in py_getitem].

(** What is read from a config depends on the file system only through
    the entry at the config path. *)
Lemma read_sample_rate_local c d (fs1 fs2 : filesystem) :
  fs1 !! c = fs2 !! c ->
  fst (read_rate c d fs1) = fst (read_rate c d fs2).
Proof.
  intros Hc.
  destruct (read_sample_rate_result json_load int_of_str c d fs1) as (o1 & H1 & _).
  destruct (read_sample_rate_result json_load int_of_str c d fs2) as (o2 & H2 & _).
  rewrite H1, H2. cbn [fst].
  revert H1 H2. step. unfold read_file. rewrite Hc.
  destruct (fs2 !! c) as [[data lk|]|]; [|congruence..].
  destruct (json_load data) as [j|]; [|congruence].
  destruct j as [ |b|z|f|s|l|m]; try congruence.
  - destruct (is_substring "audio" s); [congruence|].
    destruct (is_substring "sample_rate" s); congruence.
  - destruct (existsb _ l); [congruence|].
    destruct (existsb _ l); congruence.
  - destruct (m !! "audio") as [a|].
    + destruct a as [ |b|z|f|s|l|ma]; try congruence.
      * destruct (is_substring "sample_rate" s); [congruence|].
        destruct (m !! "sample_rate") as [v|]; [|congruence].
        destruct (to_int v); congruence.
      * destruct (existsb _ l); [congruence|].
        destruct (m !! "sample_rate") as [v|]; [|congruence].
        destruct (to_int v); congruence.
      * destruct (ma !! "sample_rate") as [v|].
        -- destruct (to_int v); congruence.
        -- destruct (m !! "sample_rate") as [v|]; [|congruence].
           destruct (to_int v); congruence.
    + destruct (m !! "sample_rate") as [v|]; [|congruence].
      destruct (to_int v); congruence.
Qed.

(** X20.  Construction looks at two paths only, the config argument and
    the sidecar of the model: two file systems that agree on them give the
    same descriptor. *)
Theorem PiperVoice_init_local model cfg (fs1 fs2 : filesystem) :
  fs1 !! (model ++ ".json") = fs2 !! (model ++ ".json") ->
  (forall c, cfg = Some c -> fs1 !! c = fs2 !! c) ->
  fst (PiperVoice_init json_load int_of_str model cfg fs1)
    = fst (PiperVoice_init json_load int_of_str model cfg fs2).
Proof.
  intros Hside Hcfg.
  destruct (PiperVoice_init_run json_load int_of_str model cfg fs1)
    as (r1 & -> & Hr1).
  destruct (PiperVoice_init_run json_load int_of_str model cfg fs2)
    as (r2 & -> & Hr2).
  cbn [fst].
  assert (Hres : resolve_config fs1 model cfg = resolve_config fs2 model cfg).
  { unfold resolve_config, isfile. destruct cfg; [done|]. by rewrite Hside. }
  rewrite Hres in *. f_equal. f_equal.
  destruct (resolve_config fs2 model cfg) as [c|] eqn:Hc; [|congruence].
  assert (Hlook : fs1 !! c = fs2 !! c).
  { destruct cfg as [c'|]; [apply Hcfg; by injection Hc as ->|].
    unfold resolve_config in Hc. destruct (isfile fs2 _); by simplify_eq. }
  unfold config_present, path_exists in *. rewrite Hlook in Hr1.
  rewrite (read_sample_rate_local c 24000 fs1 fs2 Hlook) in Hr1.
  destruct (str_truthy c && _); [|congruence].
  destruct (fst (read_rate c 24000 fs2)); congruence.
Qed.

(** X21.  With no config argument, the descriptor has no config exactly
    when the sidecar path is not a regular file (a directory of that name
    does not count), and then the rate is 24000. *)
Theorem PiperVoice_init_sidecar model (fs : filesystem) :
  exists pv,
    PiperVoice_init json_load int_of_str model None fs = (Ret pv, fs) /\
    (config_file pv = None <->
     forall data lk, fs !! (model ++ ".json") <> Some (File data lk)) /\
    (config_file pv = None -> native_sample_rate pv = 24000) /\
    (config_file pv <> None -> config_file pv = Some (model ++ ".json")).
Proof.
  destruct (PiperVoice_init_run json_load int_of_str model None fs)
    as (rate & Hinit & Hrate).
  eexists. split; [exact Hinit|]. cbn [config_file native_sample_rate].
  unfold resolve_config, isfile in *.
  destruct (fs !! (model ++ ".json")) as [[data lk|]|] eqn:Hf.
  - split; [|done]. split; [done|]. intros H. by destruct (H data lk).
  - done.
  - done.
Qed.

(** X22.  When the "audio" field is there and is neither an object nor a
    string or array free of "sample_rate", the membership test or the
    indexing raises and the rate stays 24000, whatever the top-level
    "sample_rate" is. *)
Theorem config_audio_blocks_top_level model cfg fs c data lk m a :
  resolve_config fs model cfg = Some c ->
  fs !! c = Some (File data lk) ->
  json_load data = Some (JObj m) ->
  m !! "audio" = Some a ->
  (forall ma, a <> JObj ma) ->
  py_in "sample_rate" a <> inr false ->
  exists pv, init model cfg fs = (Ret pv, fs) /\ native_sample_rate pv = 24000.
Proof.
  intros Hr Hc Hj Ha Hobj Hin.
  destruct (PiperVoice_init_run json_load int_of_str model cfg fs)
    as (rate & Hinit & Hrate).
  eexists; split; [exact Hinit|]. cbn [native_sample_rate].
  rewrite Hr in Hrate. destruct (config_present fs (Some c)); [|done].
  revert Hrate. step. unfold read_file. rewrite Hc, Hj, Ha.
  destruct a as [ |b|z|f|s|l|ma]; try done.
  - unfold py_in in Hin. by destruct (is_substring "sample_rate" s).
  - unfold py_in in Hin. by destruct (existsb _ l).
  - by destruct (Hobj ma).
Qed.

(** X23.  When the "audio" field is a string or an array in which
    "sample_rate" does not occur, the top-level "sample_rate" is used as
    if "audio" were absent. *)
Theorem config_audio_text_falls_back model cfg fs c data lk m a v n :
  resolve_config fs model cfg = Some c ->
  str_truthy c = true ->
  fs !! c = Some (File data lk) ->
  json_load data = Some (JObj m) ->
  m !! "audio" = Some a ->
  (forall ma, a <> JObj ma) ->
  py_in "sample_rate" a = inr false ->
  m !! "sample_rate" = Some v ->
  to_int v = inr n ->
  exists pv, init model cfg fs = (Ret pv, fs) /\ native_sample_rate pv = n.
Proof.
  intros Hr Ht Hc Hj Ha Hobj Hin Hv Hn.
  destruct (PiperVoice_init_run json_load int_of_str model cfg fs)
    as (rate & Hinit & Hrate).
  eexists; split; [exact Hinit|]. cbn [native_sample_rate].
  rewrite Hr in Hrate. unfold config_present, path_exists in Hrate.
  rewrite Ht, Hc in Hrate. cbn [andb] in Hrate.
  revert Hrate. step. unfold read_file. rewrite Hc, Hj, Ha.
  destruct a as [ |b|z|f|s|l|ma]; try done.
  - unfold py_in in Hin.
    assert (is_substring "sample_rate" s = false) as -> by congruence.
    by rewrite Hv, Hn.
  - unfold py_in in Hin.
    match type of Hin with
    | inr ?x = _ => assert (x = false) as -> by congruence
    end.
    by rewrite Hv, Hn.
  - by destruct (Hobj ma).
Qed.

End VoiceExtras.

(** Appending to the same prefix is injective. *)
Lemma append_cancel_l (p s t : string) : p ++ s = p ++ t -> s = t.
Proof. induction p as [|c p IH]; cbn [append]; [done|]. intros [= H]. auto. Qed.

(** Appending one character is injective. *)
Lemma append_char_cancel_r (c : Ascii.ascii) (s t : string) :
  s ++ String c EmptyString = t ++ String c EmptyString -> s = t.
Proof.
  revert t. induction s as [|a s IH]; intros [|b t]; cbn [append]; try done.
  - intros [= _ H]. by destruct t.
  - intros [= _ H]. by destruct s.
  - intros [= -> H]. f_equal. auto.
Qed.

(** Printing an integer in decimal is injective. *)
Lemma str_of_int_inj z1 z2 : str_of_int z1 = str_of_int z2 -> z1 = z2.
Proof.
  unfold str_of_int. intros H. apply DecimalZ.to_int_inj.
  assert (Hnn : forall z, Z.to_int z <> Decimal.Pos Decimal.Nil /\
                          Z.to_int z <> Decimal.Neg Decimal.Nil).
  { intros [|p|p]; split; try done; cbn [Z.to_int]; intros [= Hp];
      by apply DecimalPos.Unsigned.to_uint_nonnil in Hp. }
  destruct (Hnn z1) as [Ha Hb], (Hnn z2) as [Hc Hd].
  pose proof (DecimalString.NilZero.isi _ Ha Hb) as H1.
  pose proof (DecimalString.NilZero.isi _ Hc Hd) as H2.
  rewrite H in H1. congruence.
Qed.

(** X24.  [__repr__] tells the native sample rates apart: two descriptors
    with the same model and config paths print the same text only when
    their rates are equal. *)
Theorem PiperVoice_repr_rate v1 v2 :
  model_file v1 = model_file v2 ->
  config_file v1 = config_file v2 ->
  PiperVoice_repr v1 = PiperVoice_repr v2 ->
  native_sample_rate v1 = native_sample_rate v2.
Proof.
  unfold PiperVoice_repr. intros -> -> H.
  do 6 apply append_cancel_l in H.
  by apply append_char_cancel_r, str_of_int_inj in H.
Qed.

(** ** The further properties at concrete inputs *)

Lemma synthesize_true_effects_witness :
  exists frames call,
    queue (self (snd (Demo.synth (Demo.piper_writes false) Demo.hi Demo.ready)))
      = (queue (self Demo.ready) ++ [frames])%list /\
    stdout (snd (Demo.synth (Demo.piper_writes false) Demo.hi Demo.ready))
      = stdout Demo.ready /\
    proc_calls (snd (Demo.synth (Demo.piper_writes false) Demo.hi Demo.ready))
      = (proc_calls Demo.ready ++ [call])%list.
Proof.
  apply (synthesize_true_effects Demo.str_of_float Demo.wave_readframes
           Demo.temp_stem (Demo.piper_writes false) Demo.writable Demo.hi Demo.ready).
  vm_compute; reflexivity.
Defined.

Lemma synthesize_false_logs_once_witness :
  exists line,
    stdout (snd (Demo.synth Demo.piper_fails Demo.hi Demo.ready))
      = (stdout Demo.ready ++ [line])%list.
Proof.
  apply (synthesize_false_logs_once Demo.str_of_float Demo.wave_readframes
           Demo.temp_stem Demo.piper_fails Demo.writable Demo.hi Demo.ready).
  vm_compute; reflexivity.
Defined.

Lemma synthesize_keeps_settings_witness :
  piper_path (self (snd (Demo.synth Demo.piper_fails Demo.hi Demo.ready_0_8)))
    = piper_path (self Demo.ready_0_8) /\
  voice (self (snd (Demo.synth Demo.piper_fails Demo.hi Demo.ready_0_8)))
    = voice (self Demo.ready_0_8) /\
  length_scale (self (snd (Demo.synth Demo.piper_fails Demo.hi Demo.ready_0_8)))
    = length_scale (self Demo.ready_0_8).
Proof.
  apply (synthesize_keeps_settings Demo.str_of_float Demo.wave_readframes
           Demo.temp_stem Demo.piper_fails Demo.writable Demo.hi Demo.ready_0_8 (Ret false)).
  vm_compute; reflexivity.
Defined.

Lemma synthesize_twice_fifo_witness :
  exists frames1 frames2,
    queue (self (snd (Demo.synth (Demo.piper_writes false) Demo.hi Demo.ready)))
      = (queue (self Demo.ready) ++ [frames1])%list /\
    queue (self (snd (Demo.synth (Demo.piper_writes false) Demo.hi
                        (snd (Demo.synth (Demo.piper_writes false) Demo.hi
                                Demo.ready)))))
      = (queue (self (snd (Demo.synth (Demo.piper_writes false) Demo.hi Demo.ready)))
           ++ [frames2])%list /\
    queue (self (snd (Demo.synth (Demo.piper_writes false) Demo.hi
                        (snd (Demo.synth (Demo.piper_writes false) Demo.hi
                                Demo.ready)))))
      = (queue (self Demo.ready) ++ [frames1; frames2])%list.
Proof.
  apply (synthesize_twice_fifo Demo.str_of_float Demo.wave_readframes
           Demo.temp_stem (Demo.piper_writes false) Demo.writable Demo.hi Demo.hi
           Demo.ready
           (snd (Demo.synth (Demo.piper_writes false) Demo.hi Demo.ready)));
    vm_compute; reflexivity.
Defined.

Lemma synthesize_no_process_fs_unchanged_witness :
  fs (snd (Demo.synth (Demo.piper_writes false) Demo.lone_surrogate Demo.ready))
    = fs Demo.ready.
Proof.
  apply (synthesize_no_process_fs_unchanged Demo.str_of_float Demo.wave_readframes
           Demo.temp_stem (Demo.piper_writes false) Demo.writable Demo.lone_surrogate Demo.ready
           (Ret false));
    vm_compute; reflexivity.
Defined.

Lemma synthesize_other_files_untouched_witness :
  fs (snd (Demo.synth Demo.piper_fails Demo.hi Demo.ready)) !! "en.onnx"
    = fs Demo.ready !! "en.onnx".
Proof.
  apply (synthesize_other_files_untouched Demo.str_of_float Demo.wave_readframes
           Demo.temp_stem Demo.piper_fails Demo.writable Demo.hi Demo.ready (Ret false)).
  - vm_compute; reflexivity.
  - intros stem [= <-]. discriminate.
  - intros cmd_list input f returncode out err f' [= _ _ _ <-]. reflexivity.
Defined.


Lemma synthesize_executable_missing_witness :
  exists m',
    Demo.synth Demo.piper_missing Demo.hi Demo.ready = (Ret false, m') /\
    stdout m' =
      (stdout Demo.ready ++ [LogExeNotFound (piper_path (self Demo.ready))])%list /\
    fs m' = fs Demo.ready.
Proof.
  apply (synthesize_executable_missing Demo.str_of_float Demo.wave_readframes
           Demo.temp_stem Demo.piper_missing Demo.writable Demo.hi Demo.ready Demo.the_voice
           "/tmp/tmpk3v9x2ab" [x68; x69]);
    vm_compute; reflexivity.
Defined.

Lemma synthesize_output_missing_witness :
  exists m',
    Demo.synth DemoExtra.piper_removes Demo.hi Demo.ready = (Ret false, m') /\
    stdout m' =
      (stdout Demo.ready ++ [LogExeNotFound (piper_path (self Demo.ready))])%list /\
    queue (self m') = queue (self Demo.ready).
Proof.
  apply (synthesize_output_missing Demo.str_of_float Demo.wave_readframes
           Demo.temp_stem DemoExtra.piper_removes Demo.writable Demo.hi Demo.ready Demo.the_voice
           "/tmp/tmpk3v9x2ab" [x68; x69] [] [] Demo.the_fs);
    vm_compute; reflexivity.
Defined.

Lemma synthesize_bad_wav_witness :
  exists m',
    Demo.synth DemoExtra.piper_garbles Demo.hi Demo.ready = (Ret false, m') /\
    stdout m' =
      (stdout Demo.ready ++
       [match Demo.wave_readframes (repeat x2a 44) with
        | WavMalformed => LogWavError ("/tmp/tmpk3v9x2ab" ++ ".wav") WaveError
        | _ => LogUnexpected EOFError
        end])%list /\
    queue (self m') = queue (self Demo.ready).
Proof.
  apply (synthesize_bad_wav Demo.str_of_float Demo.wave_readframes
           Demo.temp_stem DemoExtra.piper_garbles Demo.writable Demo.hi Demo.ready Demo.the_voice
           "/tmp/tmpk3v9x2ab" [x68; x69] [] []
           (<[Demo.temp_path := File (repeat x2a 44) false]>
              (<[Demo.temp_path := File [] false]> Demo.the_fs))
           (repeat x2a 44) false);
    try (vm_compute; reflexivity).
  intros frames. vm_compute. discriminate.
Defined.

Lemma synthesize_no_temp_dir_witness :
  exists m',
    synthesize Demo.str_of_float Demo.wave_readframes DemoExtra.no_temp_dir
      (Demo.piper_writes false) Demo.writable Demo.hi Demo.ready = (Ret false, m') /\
    stdout m' =
      (stdout Demo.ready ++ [LogExeNotFound (piper_path (self Demo.ready))])%list /\
    proc_calls m' = proc_calls Demo.ready /\
    fs m' = fs Demo.ready.
Proof.
  apply (synthesize_no_temp_dir Demo.str_of_float Demo.wave_readframes
           DemoExtra.no_temp_dir (Demo.piper_writes false) Demo.writable Demo.hi Demo.ready
           Demo.the_voice);
    reflexivity.
Defined.

Lemma synthesize_unencodable_text_witness :
  exists o m',
    Demo.synth (Demo.piper_writes false) Demo.lone_surrogate Demo.ready = (o, m') /\
    o <> Ret true /\
    proc_calls m' = proc_calls Demo.ready /\
    queue (self m') = queue (self Demo.ready) /\
    (forall v stem,
       voice (self Demo.ready) = Some v ->
       str_truthy (model_file v) = true ->
       Demo.temp_stem (fs Demo.ready) = inr stem ->
       path_exists (fs Demo.ready) (stem ++ ".wav") = false ->
       o = Ret false /\
       stdout m' = (stdout Demo.ready ++ [LogUnexpected UnicodeEncodeError])%list).
Proof.
  apply (synthesize_unencodable_text Demo.str_of_float Demo.wave_readframes
           Demo.temp_stem (Demo.piper_writes false) Demo.writable
           Demo.lone_surrogate Demo.ready 0xD800%N).
  - right. left. reflexivity.
  - reflexivity.
Defined.

Lemma set_voice_unvalidated_witness :
  exists m',
    Demo.synth (Demo.piper_writes false) Demo.hi
      (set_self (set_voice (self Demo.ready) DemoExtra.empty_voice) Demo.ready)
      = (Ret false, m') /\
    stdout m' = (stdout Demo.ready ++ [LogVoiceNotSet])%list /\
    queue (self m') = queue (self Demo.ready) /\
    proc_calls m' = proc_calls Demo.ready.
Proof.
  apply (set_voice_unvalidated Demo.str_of_float Demo.wave_readframes
           Demo.temp_stem (Demo.piper_writes false) Demo.writable Demo.hi Demo.ready
           DemoExtra.empty_voice).
  reflexivity.
Defined.

Lemma set_voice_takes_effect_witness :
  voice (self (snd (Demo.synth (Demo.piper_writes false) Demo.hi
                      (set_self (set_voice (self Demo.voiceless) Demo.the_voice)
                         Demo.voiceless))))
    = Some Demo.the_voice /\
  (proc_calls (snd (Demo.synth (Demo.piper_writes false) Demo.hi
                      (set_self (set_voice (self Demo.voiceless) Demo.the_voice)
                         Demo.voiceless)))
     = proc_calls Demo.voiceless \/
   exists cmd_list input,
     proc_calls (snd (Demo.synth (Demo.piper_writes false) Demo.hi
                        (set_self (set_voice (self Demo.voiceless) Demo.the_voice)
                           Demo.voiceless)))
       = (proc_calls Demo.voiceless ++ [(cmd_list, input)])%list /\
     nth_error cmd_list 1 = Some "-m" /\
     nth_error cmd_list 2 = Some (model_file Demo.the_voice)).
Proof.
  apply (set_voice_takes_effect Demo.str_of_float Demo.wave_readframes
           Demo.temp_stem (Demo.piper_writes false) Demo.writable Demo.hi Demo.voiceless
           Demo.the_voice (Ret true)).
  vm_compute; reflexivity.
Defined.

Lemma sidecar_voice_passes_config_witness :
  exists o m' ls_part,
    Demo.synth (Demo.piper_writes false) Demo.hi Demo.ready = (o, m') /\
    proc_calls m' =
      (proc_calls Demo.ready ++
       [(([piper_path (self Demo.ready); "-m"; "en.onnx"; "-f";
           ("/tmp/tmpk3v9x2ab" ++ ".wav")%string;
           "-c"; ("en.onnx" ++ ".json")%string] ++ ls_part)%list,
         [x68; x69])])%list.
Proof.
  apply (sidecar_voice_passes_config Demo.str_of_float Demo.wave_readframes
           Demo.temp_stem (Demo.piper_writes false) Demo.writable Demo.json_load Demo.int_of_str
           Demo.hi Demo.ready "en.onnx" Demo.the_voice "/tmp/tmpk3v9x2ab" [x68; x69]);
    vm_compute; reflexivity.
Defined.


Lemma synthesize_unwritable_path_raises_witness :
  exists m',
    Demo.synth Demo.piper_missing Demo.hi Demo.ready_latin1
      = (Raise UnicodeEncodeError, m') /\
    stdout m' = stdout Demo.ready_latin1 /\
    queue (self m') = queue (self Demo.ready_latin1) /\
    fs m' = fs Demo.ready_latin1.
Proof.
  apply (synthesize_unwritable_path_raises Demo.str_of_float Demo.wave_readframes
           Demo.temp_stem Demo.piper_missing Demo.writable Demo.hi Demo.ready_latin1
           Demo.the_voice "/tmp/tmpk3v9x2ab" [x68; x69]);
    vm_compute; reflexivity.
Defined.

Lemma PiperEngine_init_env_override_witness :
  piper_path (PiperEngine_init {["PIPER_PATH" := "/opt/piper/piper"]} "nt" None None
                float_one) = "/opt/piper/piper" /\
  forall q,
    piper_path (PiperEngine_init {["PIPER_PATH" := "/opt/piper/piper"]} "nt" (Some q)
                  None float_one) = q.
Proof.
  apply (PiperEngine_init_env_override {["PIPER_PATH" := "/opt/piper/piper"]} "nt"
           "/opt/piper/piper" None float_one).
  - vm_compute; reflexivity.
  - reflexivity.
Defined.

Lemma encode_utf8_ascii_witness :
  exists bs, encode_utf8 Demo.hi = inr bs /\ map Byte.to_N bs = Demo.hi.
Proof.
  apply (encode_utf8_ascii Demo.hi).
  repeat constructor.
Defined.

Lemma PiperVoice_init_local_witness :
  fst (PiperVoice_init Demo.json_load Demo.int_of_str "en.onnx" None Demo.the_fs)
    = fst (PiperVoice_init Demo.json_load Demo.int_of_str "en.onnx" None
             DemoExtra.bigger_fs).
Proof.
  apply (PiperVoice_init_local Demo.json_load Demo.int_of_str "en.onnx" None
           Demo.the_fs DemoExtra.bigger_fs).
  - vm_compute; reflexivity.
  - intros c [=].
Defined.

Lemma config_audio_blocks_top_level_witness :
  exists pv,
    PiperVoice_init Demo.json_load Demo.int_of_str "v.onnx" None
      {["v.onnx.json" := Demo.file Demo.null_audio_and_top]}
      = (Ret pv, {["v.onnx.json" := Demo.file Demo.null_audio_and_top]}) /\
    native_sample_rate pv = 24000.
Proof.
  apply (config_audio_blocks_top_level Demo.json_load Demo.int_of_str "v.onnx" None
           {["v.onnx.json" := Demo.file Demo.null_audio_and_top]} "v.onnx.json"
           (list_byte_of_string Demo.null_audio_and_top) false
           (<["audio" := JNull]> {["sample_rate" := JInt 22050]}) JNull);
    try (vm_compute; reflexivity); discriminate.
Defined.

Lemma config_audio_text_falls_back_witness :
  exists pv,
    PiperVoice_init DemoExtra.json_load Demo.int_of_str "v.onnx" None
      {["v.onnx.json" := Demo.file DemoExtra.text_audio_and_top]}
      = (Ret pv, {["v.onnx.json" := Demo.file DemoExtra.text_audio_and_top]}) /\
    native_sample_rate pv = 16000.
Proof.
  apply (config_audio_text_falls_back DemoExtra.json_load Demo.int_of_str
           "v.onnx" None
           {["v.onnx.json" := Demo.file DemoExtra.text_audio_and_top]} "v.onnx.json"
           (list_byte_of_string DemoExtra.text_audio_and_top) false
           (<["audio" := JStr "mono"]> {["sample_rate" := JInt 16000]})
           (JStr "mono") (JInt 16000) 16000);
    try (vm_compute; reflexivity); discriminate.
Defined.

Lemma PiperVoice_repr_rate_witness :
  native_sample_rate Demo.the_voice = native_sample_rate Demo.the_voice.
Proof.
  apply (PiperVoice_repr_rate Demo.the_voice Demo.the_voice); reflexivity.
Defined.
